(** * LeetCode profile tracker: a shallow embedding of [leetcodeprofile.py]

    The development follows the source file top to bottom: Python values
    and exceptions, [build_url], [validate_username], the [LeetcodeWrapper]
    class, [fetch_user_data], [rank_users] and the batch loop of [main].
    Theorems come after the definitions. *)

From Stdlib Require Import ZArith String Ascii List Lia Sorted Permutation OrderedTypeEx.
From stdpp Require Import base option list strings gmap sorting.

Set Warnings "-register-all".
Open Scope Z_scope.

(** ** Python values

    The values the program handles are what [response.json()] can return,
    plus the strings read from the terminal: [None], booleans, integers,
    strings, lists and dicts.  A [str] is kept as its UTF-8 bytes, for which
    bytewise comparison and code point comparison agree.  JSON numbers with a
    fractional part are outside the model.  A dict is an association list in
    insertion order; its keys are distinct, and JSON keys are strings. *)

Inductive pyval : Type :=
  | PNone
  | PBool (b : bool)
  | PInt (z : Z)
  | PStr (s : string)
  | PList (items : list pyval)
  | PDict (fields : list (string * pyval)).

(** [bool(v)]: the truth value Python gives to [v]. *)
Definition truthy (v : pyval) : bool :=
  match v with
  | PNone => false
  | PBool b => b
  | PInt z => negb (z =? 0)
  | PStr s => negb (String.eqb s "")
  | PList items => match items with [] => false | _ => true end
  | PDict fields => match fields with [] => false | _ => true end
  end.

(** [isinstance(v, str)], [isinstance(v, list)] and [isinstance(v, dict)]. *)
Definition isinstance_str (v : pyval) : bool :=
  match v with PStr _ => true | _ => false end.

Definition isinstance_list (v : pyval) : bool :=
  match v with PList _ => true | _ => false end.

Definition isinstance_dict (v : pyval) : bool :=
  match v with PDict _ => true | _ => false end.

(** [int] and [bool] compare as numbers ([bool] is a subclass of [int]). *)
Definition as_number (v : pyval) : option Z :=
  match v with
  | PInt z => Some z
  | PBool b => Some (if b then 1 else 0)
  | _ => None
  end.

(** Lookup in a dict body: the first (and, keys being distinct, only)
    binding of [k]. *)
Fixpoint dict_lookup (k : string) (fields : list (string * pyval)) : option pyval :=
  match fields with
  | [] => None
  | (k', v) :: rest => if String.eqb k k' then Some v else dict_lookup k rest
  end.

(** [d[k] = v]: overwrite in place when [k] is bound, append otherwise. *)
Fixpoint dict_set (k : string) (v : pyval) (fields : list (string * pyval))
  : list (string * pyval) :=
  match fields with
  | [] => [(k, v)]
  | (k', v') :: rest =>
      if String.eqb k k' then (k', v) :: rest else (k', v') :: dict_set k v rest
  end.

(** [a == b].  Dicts are equal when they bind the same keys to equal
    values, whatever the order. *)
Fixpoint py_eq (a b : pyval) {struct a} : bool :=
  match a, b with
  | PNone, PNone => true
  | PStr s, PStr t => String.eqb s t
  | PList l, PList m =>
      (fix items_eq (l m : list pyval) {struct l} : bool :=
         match l, m with
         | [], [] => true
         | x :: l', y :: m' => py_eq x y && items_eq l' m'
         | _, _ => false
         end) l m
  | PDict d, PDict e =>
      (length d =? length e)%nat &&
      (fix fields_eq (d : list (string * pyval)) {struct d} : bool :=
         match d with
         | [] => true
         | (k, v) :: d' =>
             match dict_lookup k e with
             | Some w => py_eq v w
             | None => false
             end && fields_eq d'
         end) d
  | _, _ =>
      match as_number a, as_number b with
      | Some x, Some y => x =? y
      | _, _ => false
      end
  end.

(** [a < b]; [None] stands for the [TypeError] Python raises when the two
    operands cannot be ordered.  Numbers order by value, strings
    lexicographically, lists by their first differing item. *)
Fixpoint py_lt (a b : pyval) {struct a} : option bool :=
  match a, b with
  | PStr s, PStr t => Some (String.ltb s t)
  | PList l, PList m =>
      (fix items_lt (l m : list pyval) {struct l} : option bool :=
         match l, m with
         | [], [] => Some false
         | [], _ :: _ => Some true
         | _ :: _, [] => Some false
         | x :: l', y :: m' => if py_eq x y then items_lt l' m' else py_lt x y
         end) l m
  | _, _ =>
      match as_number a, as_number b with
      | Some x, Some y => Some (x <? y)
      | _, _ => None
      end
  end.

(** ** Exceptions and results *)

Inductive exn : Type :=
  | APIError (message : string)
  | ValidationError (message : string)
  | AttributeError
  | TypeError.

Inductive result (A : Type) : Type :=
  | Raise (e : exn)
  | Return (a : A).
Arguments Raise {A} e.
Arguments Return {A} a.

#[global] Instance result_ret : MRet result := λ A a, Return a.
#[global] Instance result_bind : MBind result := λ A B f m,
  match m with
  | Raise e => Raise e
  | Return a => f a
  end.

(** [try: body except APIError as e: handler(e)]: only [APIError] is
    intercepted, every other exception passes through. *)
Definition try_except_APIError {A} (body : result A) (handler : string → result A)
  : result A :=
  match body with
  | Raise (APIError message) => handler message
  | other => other
  end.

(** [v.get(k, default)]: only dicts have the method. *)
Definition py_get (v : pyval) (k : string) (default : pyval) : result pyval :=
  match v with
  | PDict fields =>
      match dict_lookup k fields with
      | Some x => Return x
      | None => Return default
      end
  | _ => Raise AttributeError
  end.

(** Iterating over a value, as [for x in v] does: the items of a list, the
    keys of a dict, the characters of a string (a UTF-8 continuation byte
    stays with the character it belongs to); other values are not
    iterable. *)
Definition utf8_continuation (c : ascii) : bool :=
  let n := N_of_ascii c in ((128 <=? n) && (n <? 192))%N.

Fixpoint utf8_chars (s : string) : list string :=
  match s with
  | EmptyString => []
  | String c rest =>
      let chars := utf8_chars rest in
      match rest, chars with
      | String c' _, ch :: chars' =>
          if utf8_continuation c' then String c ch :: chars'
          else String c EmptyString :: chars
      | _, _ => String c EmptyString :: chars
      end
  end.

Definition py_iter (v : pyval) : result (list pyval) :=
  match v with
  | PList items => Return items
  | PDict fields => Return (map (λ kv, PStr (fst kv)) fields)
  | PStr s => Return (map PStr (utf8_chars s))
  | _ => Raise TypeError
  end.

(** [sep.join(items)]: every item has to be a [str]. *)
Fixpoint str_join (sep : string) (items : list pyval) : result string :=
  match items with
  | [] => Return ""
  | [PStr s] => Return s
  | PStr s :: rest => joined ← str_join sep rest; Return (s +:+ sep +:+ joined)
  | _ :: _ => Raise TypeError
  end.

(** ** [build_url]

    Every call in the program leaves [params] at [None], so the URL is the
    base followed by the endpoint and the query-string branch is not
    entered. *)
Definition build_url (base_url endpoint : string) : string :=
  base_url +:+ endpoint.

(** ** [validate_username] *)
Definition validate_username (username : pyval) : result unit :=
  if negb (truthy username) || negb (isinstance_str username)
  then Raise (ValidationError "Username must be a non-empty string")
  else Return tt.

(** ** The transport

    What [requests.get(url, timeout=10)] followed by [raise_for_status()]
    and [response.json()] can do: raise an [HTTPError], raise another
    [RequestException] (connection failure, timeout), or deliver a body
    that either decodes to a value or is not JSON. *)
Inductive http_outcome : Type :=
  | RaisesHTTPError (http_err : string)
  | RaisesRequestException (req_err : string)
  | Responds (body : option pyval).

Record LeetcodeWrapper : Type := { username : string }.

Definition BASE_URL : string := "https://alfa-leetcode-api.onrender.com".

Section Remote.

(** The remote API, as a function of the requested URL. *)
Variable requests_get : string → http_outcome.

(** [LeetcodeWrapper.__init__]; [main] only passes strings. *)
Definition LeetcodeWrapper_init (name : string) : result LeetcodeWrapper :=
  validate_username (PStr name) ;; Return {| username := name |}.

Definition _request (endpoint : string) : result pyval :=
  let url := build_url BASE_URL endpoint in
  match requests_get url with
  | RaisesHTTPError http_err =>
      Raise (APIError ("HTTP error occurred: " +:+ http_err))
  | RaisesRequestException req_err =>
      Raise (APIError ("Request error occurred: " +:+ req_err))
  | Responds None => Raise (APIError "Failed to parse JSON response")
  | Responds (Some json) => Return json
  end.

Definition get_profile (self : LeetcodeWrapper) : result pyval :=
  _request ("/" +:+ username self).

Definition get_badges (self : LeetcodeWrapper) : result pyval :=
  _request ("/" +:+ username self +:+ "/badges").

Definition get_solved (self : LeetcodeWrapper) : result pyval :=
  _request ("/" +:+ username self +:+ "/solved").

(** ** [fetch_user_data]

    The constructor runs before the [try], so a [ValidationError] is not
    intercepted; inside the [try] only [APIError] is. *)
Definition fetch_user_data (name : string) : result pyval :=
  api ← LeetcodeWrapper_init name;
  try_except_APIError
    (profile ← get_profile api;
     badges ← get_badges api;
     solved_problems ← get_solved api;
     rating ← py_get profile "reputation" (PStr "N/A");
     solved ← py_get solved_problems "solvedProblem" (PStr "N/A");
     ranking ← py_get profile "ranking" (PStr "N/A");
     let user_data :=
       [("Username", PStr name); ("Rating", rating);
        ("Problems Solved", solved); ("Badges", PStr "N/A");
        ("Ranking", ranking)] in
     has_badges ←
       (if truthy badges
        then found ← py_get badges "badges" PNone; Return (isinstance_list found)
        else Return false);
     if (has_badges : bool) then
       listed ← py_get badges "badges" (PList []);
       entries ← py_iter listed;
       badge_names ← mapM (λ badge, py_get badge "displayName" (PStr "N/A")) entries;
       joined ← str_join ", " badge_names;
       Return (PDict (dict_set "Badges" (PStr joined) user_data))
     else Return (PDict user_data))
    (λ e, Raise (APIError ("Failed to fetch data for " +:+ name +:+ ": " +:+ e))).

End Remote.

(** ** [rank_users]

    [sorted(data, key=..., reverse=True)] computes the key of every item
    first, then orders the items by decreasing key using [<] alone, and
    keeps items with equal keys in their original order.  It is modelled
    by a stable insertion sort on the decorated list; a comparison Python
    cannot make raises [TypeError]. *)
Fixpoint insert_desc (kx : pyval * pyval) (sorted : list (pyval * pyval))
  : result (list (pyval * pyval)) :=
  match sorted with
  | [] => Return [kx]
  | ky :: rest =>
      match py_lt (fst kx) (fst ky) with
      | None => Raise TypeError
      | Some true => rest' ← insert_desc kx rest; Return (ky :: rest')
      | Some false => Return (kx :: ky :: rest)
      end
  end.

Fixpoint sort_desc (decorated : list (pyval * pyval)) : result (list (pyval * pyval)) :=
  match decorated with
  | [] => Return []
  | kx :: rest => sorted ← sort_desc rest; insert_desc kx sorted
  end.

Definition sorted_reverse (key : pyval → result pyval) (data : list pyval)
  : result (list pyval) :=
  keys ← mapM key data;
  sorted ← sort_desc (zip keys data);
  Return (map snd sorted).

Definition rank_users (data : list pyval) : result (list pyval * list pyval) :=
  sorted_by_rating ← sorted_reverse (λ x, py_get x "Rating" (PInt 0)) data;
  sorted_by_solved ← sorted_reverse (λ x, py_get x "Problems Solved" (PInt 0)) data;
  Return (sorted_by_rating, sorted_by_solved).

(** *** [rank_users] on list objects

    Python lists are mutable objects passed by reference.  To state what
    ranking does to the caller's list, the same function is given on a heap
    of list objects: [data] is the address of the batch list, and each
    [sorted] call allocates the list it returns.  A computation is stuck
    ([None]) only when handed an address that is not allocated. *)
Abbreviation heap := (gmap nat (list pyval)).

Definition alloc (items : list pyval) (h : heap) : nat * heap :=
  let l := fresh (dom h) in (l, <[l := items]> h).

Definition sorted_reverse_obj (key : pyval → result pyval) (data : nat) (h : heap)
  : option (result nat * heap) :=
  items ← h !! data;
  match sorted_reverse key items with
  | Raise e => Some (Raise e, h)
  | Return view => let '(l, h') := alloc view h in Some (Return l, h')
  end.

Definition rank_users_obj (data : nat) (h : heap)
  : option (result (nat * nat) * heap) :=
  '(r1, h1) ← sorted_reverse_obj (λ x, py_get x "Rating" (PInt 0)) data h;
  match r1 with
  | Raise e => Some (Raise e, h1)
  | Return sorted_by_rating =>
      '(r2, h2) ← sorted_reverse_obj (λ x, py_get x "Problems Solved" (PInt 0)) data h1;
      match r2 with
      | Raise e => Some (Raise e, h2)
      | Return sorted_by_solved => Some (Return (sorted_by_rating, sorted_by_solved), h2)
      end
  end.

(** ** The batch loop of [main]

    [futures] pairs every submitted task with its username, in submission
    order, and the loop takes the outcomes in that order.  A record is
    appended to [results]; an [APIError] or a [ValidationError] is reported
    on the terminal; any other exception leaves the loop and ends [main]. *)
Record batch : Type := { results : list pyval; printed : list string }.

Fixpoint collect (futures : list (string * result pyval)) (st : batch)
  : batch * option exn :=
  match futures with
  | [] => (st, None)
  | (name, outcome) :: rest =>
      match outcome with
      | Return user_data =>
          collect rest {| results := results st ++ [user_data]; printed := printed st |}
      | Raise (APIError e) =>
          collect rest
            {| results := results st;
               printed := printed st ++ ["Error fetching data for " +:+ name +:+ ": " +:+ e] |}
      | Raise (ValidationError e) =>
          collect rest
            {| results := results st;
               printed := printed st ++ ["Validation error for " +:+ name +:+ ": " +:+ e] |}
      | Raise other => (st, Some other)
      end
  end.

Definition submit_all (requests_get : string → http_outcome) (usernames : list string)
  : list (string * result pyval) :=
  map (λ name, (name, fetch_user_data requests_get name)) usernames.

Definition main_fetch (requests_get : string → http_outcome) (usernames : list string)
  : batch * option exn :=
  collect (submit_all requests_get usernames) {| results := []; printed := [] |}.

(** * Specification-side notions and sample inputs

    The predicates below restate wording of the specification that has no
    counterpart in the source; the sample transports are the concrete
    inputs at which the theorems are exercised. *)

(** What section 4.1 of the specification asks the validator to reject,
    in the specification's words: the empty text, a text made of
    whitespace only, and any value that is not a text.  Whitespace is what
    [str.isspace] accepts among the ASCII characters. *)
Definition is_space (c : ascii) : bool :=
  let n := N_of_ascii c in
  ((n =? 32) || ((9 <=? n) && (n <=? 13)) || ((28 <=? n) && (n <=? 31)))%N.

Definition whitespace_only (s : string) : bool :=
  negb (String.eqb s "") && forallb is_space (list_ascii_of_string s).

Definition spec_rejects_identity (v : pyval) : Prop :=
  v = PStr "" ∨ (∃ s, v = PStr s ∧ whitespace_only s = true) ∨ isinstance_str v = false.

Definition raises_ValidationError {A} (r : result A) : Prop :=
  ∃ message, r = Raise (ValidationError message).


(** A transport given by a table of URLs; a URL that is not listed cannot
    be reached. *)
Fixpoint route (table : list (string * http_outcome)) (url : string) : http_outcome :=
  match table with
  | [] => RaisesRequestException "connection refused"
  | (u, outcome) :: rest => if String.eqb url u then outcome else route rest url
  end.

(** The scenario of section 8 for "carol": all three lookups succeed. *)
Definition carol_api : string → http_outcome :=
  route
    [(BASE_URL +:+ "/carol",
      Responds (Some (PDict [("reputation", PInt 1500); ("ranking", PInt 200)])));
     (BASE_URL +:+ "/carol/badges",
      Responds (Some (PDict [("badges",
        PList [PDict [("displayName", PStr "Guardian")];
               PDict [("displayName", PStr "Annual Badge")]])])));
     (BASE_URL +:+ "/carol/solved",
      Responds (Some (PDict [("solvedProblem", PInt 340)])))].

(** Profile and solved count are served for "dave", the badges lookup
    answers with an HTTP error. *)
Definition dave_api : string → http_outcome :=
  route
    [(BASE_URL +:+ "/dave",
      Responds (Some (PDict [("reputation", PInt 10); ("ranking", PInt 900)])));
     (BASE_URL +:+ "/dave/badges", RaisesHTTPError "503 Server Error");
     (BASE_URL +:+ "/dave/solved",
      Responds (Some (PDict [("solvedProblem", PInt 12)])))].

(** The display name of a badge entry as [fetch_user_data] reads it. *)
Definition badge_name (entry : list (string * pyval)) : string :=
  match dict_lookup "displayName" entry with
  | Some (PStr display) => display
  | _ => "N/A"
  end.

Definition named_or_unnamed (entry : list (string * pyval)) : Prop :=
  match dict_lookup "displayName" entry with
  | Some (PStr _) | None => True
  | Some _ => False
  end.

Definition field_or_NA (k : string) (fields : list (string * pyval)) : pyval :=
  match dict_lookup k fields with
  | Some v => v
  | None => PStr "N/A"
  end.

(** What the batch loop does with one finished task: the record it
    appends, or the line it prints. *)
Definition record_of (future : string * result pyval) : option pyval :=
  match snd future with
  | Return user_data => Some user_data
  | Raise _ => None
  end.

Definition report_of (future : string * result pyval) : option string :=
  match future with
  | (name, Raise (APIError e)) =>
      Some ("Error fetching data for " +:+ name +:+ ": " +:+ e)
  | (name, Raise (ValidationError e)) =>
      Some ("Validation error for " +:+ name +:+ ": " +:+ e)
  | _ => None
  end.

(** The outcomes the loop has a branch for. *)
Definition reported (outcome : result pyval) : Prop :=
  match outcome with
  | Return _ | Raise (APIError _) | Raise (ValidationError _) => True
  | Raise _ => False
  end.

(** Payload shapes under which [fetch_user_data] raises nothing but its
    own two exception classes: the profile and solved-count payloads are
    objects; the badges payload is falsy, or an object whose "badges"
    list, if it has one, holds objects with a text display name or none. *)
Definition entry_ok (entry : pyval) : bool :=
  match entry with
  | PDict fields =>
      match dict_lookup "displayName" fields with
      | Some (PStr _) | None => true
      | Some _ => false
      end
  | _ => false
  end.

Definition badges_ok (outcome : result pyval) : bool :=
  match outcome with
  | Raise _ => true
  | Return (PDict fields) =>
      match dict_lookup "badges" fields with
      | Some (PList entries) => forallb entry_ok entries
      | _ => true
      end
  | Return other => negb (truthy other)
  end.

Definition object_ok (outcome : result pyval) : bool :=
  match outcome with
  | Raise _ => true
  | Return payload => isinstance_dict payload
  end.

Definition payloads_ok (requests_get : string → http_outcome) (name : string) : bool :=
  let api := {| username := name |} in
  object_ok (get_profile requests_get api) &&
  badges_ok (get_badges requests_get api) &&
  object_ok (get_solved requests_get api).

(** All three lookups for "eve" succeed, but the profile body is a JSON
    array rather than an object. *)
Definition eve_api : string → http_outcome :=
  route
    [(BASE_URL +:+ "/eve", Responds (Some (PList [])));
     (BASE_URL +:+ "/eve/badges", Responds (Some (PDict [("badges", PList [])])));
     (BASE_URL +:+ "/eve/solved", Responds (Some (PDict [("solvedProblem", PInt 7)])))].

(** The key [rank_users] sorts a record by: the field, or 0 when the
    record has no such field. *)
Definition rank_key (field : string) (record : pyval) : pyval :=
  match record with
  | PDict fields =>
      match dict_lookup field fields with
      | Some v => v
      | None => PInt 0
      end
  | _ => PNone
  end.

(** A record paired with its key, as [sorted] holds it while sorting. *)
Definition decorate (field : string) (record : pyval) : pyval * pyval :=
  (rank_key field record, record).

(** Numbers on one side, everything else on the other: Python orders two
    scalars only when both are numbers or both are strings. *)
Definition is_numeric (v : pyval) : bool :=
  match as_number v with
  | Some _ => true
  | None => false
  end.

Definition scalar (v : pyval) : bool :=
  match v with
  | PInt _ | PBool _ | PStr _ => true
  | _ => false
  end.

(** An object whose [field] is a number or a string. *)
Definition rankable (field : string) (record : pyval) : Prop :=
  isinstance_dict record = true ∧ scalar (rank_key field record) = true.

(** A record of the batch, as far as ranking is concerned: an object whose
    Rating and Problems Solved are each a number or a string, "N/A" being
    the string [fetch_user_data] stores for a field the API did not
    deliver. *)
Definition profile_record (record : pyval) : bool :=
  isinstance_dict record &&
  scalar (rank_key "Rating" record) &&
  scalar (rank_key "Problems Solved" record).

(** All keys of one kind: all numbers, or none. *)
Definition one_kind (field : string) (data : list pyval) : bool :=
  forallb (λ r, is_numeric (rank_key field r)) data ||
  forallb (λ r, negb (is_numeric (rank_key field r))) data.

(** Two keys are tied when neither is less than the other. *)
Definition tied (a b : pyval) : bool :=
  match py_lt a b, py_lt b a with
  | Some false, Some false => true
  | _, _ => false
  end.

(** On decorated items: the key of [x] is not less than the key of [y]. *)
Definition key_ge (x y : pyval * pyval) : Prop := py_lt (fst x) (fst y) = Some false.

(** [view] is [data] in stable descending order of [key]: the same
    records, no record placed before one with a greater key, and records
    with tied keys in the order they have in [data]. *)
Record stable_descending (key : pyval → pyval) (data view : list pyval) : Prop := {
  sd_permutation : Permutation data view;
  sd_descending : StronglySorted (λ r r', py_lt (key r) (key r') = Some false) view;
  sd_stable : ∀ k, List.filter (λ r, tied k (key r)) view
                   = List.filter (λ r, tied k (key r)) data
}.

(** A field is mixed in [data] when one record has the "N/A" placeholder
    there and another has an integer. *)
Definition mixed (field : string) (data : list pyval) : Prop :=
  ∃ r1 r2 z, In r1 data ∧ In r2 data ∧
             rank_key field r1 = PStr "N/A" ∧ rank_key field r2 = PInt z.

Definition user_record (name : string) (rating solved : pyval) : pyval :=
  PDict [("Username", PStr name); ("Rating", rating); ("Problems Solved", solved);
         ("Badges", PStr "N/A"); ("Ranking", PStr "N/A")].

(** Three records with a tie on the rating and a tie on the solved count,
    and a batch in which one rating is the "N/A" placeholder. *)
Definition three_users : list pyval :=
  [user_record "ann" (PInt 3) (PInt 1);
   user_record "bob" (PInt 5) (PInt 1);
   user_record "cat" (PInt 3) (PInt 7)].

Definition unrated_batch : list pyval :=
  [user_record "ann" (PStr "N/A") (PInt 1);
   user_record "bob" (PInt 1500) (PInt 340)].

(** A heap holding the batch of [three_users] at address 0. *)
Definition batch_heap : heap := {[ 0%nat := three_users ]}.

(** * The rest of the program

    The parts of [leetcodeprofile.py] around the functions above: the
    merge step of [fetch_user_data] as a function of the three payloads,
    the two ways [main] reads its usernames, and what [main] does with
    the batch once the loop is over. *)

(** Lines 83 to 95 of [fetch_user_data]: the record built from the three
    payloads once all lookups have returned. *)
Definition merge_fields (name : string) (profile badges solved_problems : pyval)
  : result pyval :=
  rating ← py_get profile "reputation" (PStr "N/A");
  solved ← py_get solved_problems "solvedProblem" (PStr "N/A");
  ranking ← py_get profile "ranking" (PStr "N/A");
  let user_data :=
    [("Username", PStr name); ("Rating", rating);
     ("Problems Solved", solved); ("Badges", PStr "N/A");
     ("Ranking", ranking)] in
  has_badges ←
    (if truthy badges
     then found ← py_get badges "badges" PNone; Return (isinstance_list found)
     else Return false);
  if (has_badges : bool) then
    listed ← py_get badges "badges" (PList []);
    entries ← py_iter listed;
    badge_names ← mapM (λ badge, py_get badge "displayName" (PStr "N/A")) entries;
    joined ← str_join ", " badge_names;
    Return (PDict (dict_set "Badges" (PStr joined) user_data))
  else Return (PDict user_data).

(** The messages [_request] puts into an [APIError]. *)
Definition lookup_failure (cause : string) : Prop :=
  cause = "Failed to parse JSON response" ∨
  (∃ http_err, cause = "HTTP error occurred: " +:+ http_err) ∨
  (∃ req_err, cause = "Request error occurred: " +:+ req_err).

(** The three addresses [fetch_user_data] requests for a user. *)
Definition profile_url (name : string) : string :=
  build_url BASE_URL ("/" +:+ name).

Definition badges_url (name : string) : string :=
  build_url BASE_URL ("/" +:+ name +:+ "/badges").

Definition solved_url (name : string) : string :=
  build_url BASE_URL ("/" +:+ name +:+ "/solved").

(** A payload that delivers the badge list the merge step reads. *)
Definition badge_list (badges : pyval) : option (list pyval) :=
  match badges with
  | PDict fields =>
      match dict_lookup "badges" fields with
      | Some (PList entries) => Some entries
      | _ => None
      end
  | _ => None
  end.

(** ** Reading the usernames

    [s.split(",")] cuts at every comma and always returns at least one
    piece.  [s.strip()] removes the whitespace characters at both ends:
    the ASCII ones of [is_space] and, in their UTF-8 encoding, U+0085,
    U+00A0, U+1680, U+2000 to U+200A, U+2028, U+2029, U+202F, U+205F and
    U+3000. *)
Fixpoint split_on (sep : ascii) (s : string) : list string :=
  match s with
  | EmptyString => [EmptyString]
  | String c rest =>
      if Ascii.eqb c sep then EmptyString :: split_on sep rest
      else match split_on sep rest with
           | piece :: pieces => String c piece :: pieces
           | [] => [String c EmptyString]
           end
  end.

Definition space2 (c1 c2 : ascii) : bool :=
  let n1 := N_of_ascii c1 in
  let n2 := N_of_ascii c2 in
  ((n1 =? 194) && ((n2 =? 133) || (n2 =? 160)))%N.

Definition space3 (c1 c2 c3 : ascii) : bool :=
  let n1 := N_of_ascii c1 in
  let n2 := N_of_ascii c2 in
  let n3 := N_of_ascii c3 in
  (((n1 =? 225) && (n2 =? 154) && (n3 =? 128)) ||
   ((n1 =? 226) && (n2 =? 128) &&
      (((128 <=? n3) && (n3 <=? 138)) || (n3 =? 168) || (n3 =? 169) || (n3 =? 175))) ||
   ((n1 =? 226) && (n2 =? 129) && (n3 =? 159)) ||
   ((n1 =? 227) && (n2 =? 128) && (n3 =? 128)))%N.

(** Drop leading whitespace, given how to recognise a two-byte and a
    three-byte whitespace character from its bytes. *)
Fixpoint lstrip_with (sp2 : ascii → ascii → bool) (sp3 : ascii → ascii → ascii → bool)
    (s : string) : string :=
  match s with
  | EmptyString => EmptyString
  | String c1 r1 =>
      if is_space c1 then lstrip_with sp2 sp3 r1
      else match r1 with
           | String c2 r2 =>
               if sp2 c1 c2 then lstrip_with sp2 sp3 r2
               else match r2 with
                    | String c3 r3 =>
                        if sp3 c1 c2 c3 then lstrip_with sp2 sp3 r3 else s
                    | EmptyString => s
                    end
           | EmptyString => s
           end
  end.

Definition string_rev (s : string) : string :=
  string_of_list_ascii (rev (list_ascii_of_string s)).

Definition lstrip (s : string) : string := lstrip_with space2 space3 s.

(** Trailing whitespace is leading whitespace of the reversed bytes. *)
Definition rstrip (s : string) : string :=
  string_rev
    (lstrip_with (λ c2 c1, space2 c1 c2) (λ c3 c2 c1, space3 c1 c2 c3) (string_rev s)).

Definition strip (s : string) : string := rstrip (lstrip s).

(** Line 144: [[username.strip() for username in input_string.split(",")]]. *)
Definition manual_usernames (input_string : string) : list string :=
  map strip (split_on "," input_string).

(** Line 149: [[line.strip() for line in file.readlines() if line.strip()]],
    as a function of the lines read. *)
Definition file_usernames (lines : list string) : list string :=
  map strip (List.filter (λ line, negb (String.eqb (strip line) "")) lines).

Definition count_commas (s : string) : nat :=
  length (List.filter (Ascii.eqb ",") (list_ascii_of_string s)).

Definition comma_free (s : string) : Prop := ¬ In ","%char (list_ascii_of_string s).

(** ** After the loop

    Lines 169 to 184: once the loop is over [main] prints the records,
    calls [rank_users] on [results] and shows the first five records of
    each view.  An exception that left the loop ends [main] before. *)
Definition main_rank (requests_get : string → http_outcome) (usernames : list string)
  : result (list pyval * list pyval) :=
  match main_fetch requests_get usernames with
  | (st, None) => rank_users (results st)
  | (_, Some e) => Raise e
  end.

Definition top_users (ranked : list pyval) : list pyval := take 5 ranked.

(** The exceptions the loop has no branch for. *)
Definition unexpected (e : exn) : Prop :=
  match e with
  | APIError _ | ValidationError _ => False
  | _ => True
  end.

(** A user whose lookups all succeed with an integer reputation, an
    integer solved count and a readable badges payload. *)
Definition integer_field (k : string) (outcome : result pyval) : bool :=
  match outcome with
  | Return (PDict fields) =>
      match dict_lookup k fields with
      | Some (PInt _) => true
      | _ => false
      end
  | _ => false
  end.

Definition rated_user (requests_get : string → http_outcome) (name : string) : bool :=
  let api := {| username := name |} in
  negb (String.eqb name "") &&
  integer_field "reputation" (get_profile requests_get api) &&
  integer_field "solvedProblem" (get_solved requests_get api) &&
  match get_badges requests_get api with
  | Return badges => badges_ok (Return badges)
  | Raise _ => false
  end.

(** Sample transports: [carol_api] extended with the routes of "dave", and
    a transport serving "nina", whose profile carries no reputation, next
    to "carol". *)
Definition carol_dave_api : string → http_outcome :=
  λ url, match carol_api url with
         | RaisesRequestException _ => dave_api url
         | outcome => outcome
         end.

Definition nina_api : string → http_outcome :=
  λ url,
    match
      route
        [(BASE_URL +:+ "/nina", Responds (Some (PDict [("ranking", PInt 5)])));
         (BASE_URL +:+ "/nina/badges", Responds (Some (PDict [])));
         (BASE_URL +:+ "/nina/solved",
          Responds (Some (PDict [("solvedProblem", PInt 3)])))] url
    with
    | RaisesRequestException _ => carol_api url
    | outcome => outcome
    end.

(** All lookups for "olga" succeed; her second badge has a display name
    that is not a text. *)
Definition olga_api : string → http_outcome :=
  route
    [(BASE_URL +:+ "/olga", Responds (Some (PDict [("reputation", PInt 1)])));
     (BASE_URL +:+ "/olga/badges",
      Responds (Some (PDict [("badges",
        PList [PDict [("displayName", PStr "Knight")];
               PDict [("displayName", PNone)]])])));
     (BASE_URL +:+ "/olga/solved",
      Responds (Some (PDict [("solvedProblem", PInt 2)])))].

(** The lookup that fails first, in the order [fetch_user_data] makes
    them, and the message of its [APIError]. *)
Definition first_failure (requests_get : string → http_outcome) (name cause : string)
  : Prop :=
  let api := {| username := name |} in
  get_profile requests_get api = Raise (APIError cause) ∨
  (∃ p, get_profile requests_get api = Return p ∧
        get_badges requests_get api = Raise (APIError cause)) ∨
  (∃ p b, get_profile requests_get api = Return p ∧
          get_badges requests_get api = Return b ∧
          get_solved requests_get api = Raise (APIError cause)).

(** All three lookups return. *)
Definition lookups_return (requests_get : string → http_outcome) (name : string)
    (p b s : pyval) : Prop :=
  let api := {| username := name |} in
  get_profile requests_get api = Return p ∧
  get_badges requests_get api = Return b ∧
  get_solved requests_get api = Return s.

(** An API that knows nothing of "erin" but an empty badges object. *)
Definition erin_badges_api : string → http_outcome :=
  route [(BASE_URL +:+ "/erin/badges", Responds (Some (PDict [])))].

(** Two batch states put end to end. *)
Definition batch_app (st1 st2 : batch) : batch :=
  {| results := results st1 ++ results st2; printed := printed st1 ++ printed st2 |}.

(** The line the loop prints for a failed lookup of [name]. *)
Definition api_failure_line (line : string) : Prop :=
  ∃ name cause,
    lookup_failure cause ∧
    line = "Error fetching data for " +:+ name +:+ ": " +:+
           ("Failed to fetch data for " +:+ name +:+ ": " +:+ cause).

(** A batch of six records and its two rankings. *)
Definition six_users : list pyval :=
  [user_record "ann" (PInt 3) (PInt 1); user_record "bob" (PInt 5) (PInt 1);
   user_record "cat" (PInt 3) (PInt 7); user_record "dan" (PInt 9) (PInt 2);
   user_record "eli" (PInt 1) (PInt 9); user_record "fay" (PInt 5) (PInt 4)].

Definition six_by_rating : list pyval :=
  [user_record "dan" (PInt 9) (PInt 2); user_record "bob" (PInt 5) (PInt 1);
   user_record "fay" (PInt 5) (PInt 4); user_record "ann" (PInt 3) (PInt 1);
   user_record "cat" (PInt 3) (PInt 7); user_record "eli" (PInt 1) (PInt 9)].

Definition six_by_solved : list pyval :=
  [user_record "eli" (PInt 1) (PInt 9); user_record "cat" (PInt 3) (PInt 7);
   user_record "fay" (PInt 5) (PInt 4); user_record "dan" (PInt 9) (PInt 2);
   user_record "ann" (PInt 3) (PInt 1); user_record "bob" (PInt 5) (PInt 1)].
(** * Properties *)

(** ** The result monad *)

Lemma bind_Return {A B} (f : A → result B) (a : A) : Return a ≫= f = f a.
Proof. reflexivity. Qed.

Lemma bind_Raise {A B} (f : A → result B) (e : exn) : Raise e ≫= f = Raise e.
Proof. reflexivity. Qed.

Lemma bind_Return_inv {A B} (f : A → result B) (m : result A) (b : B) :
  m ≫= f = Return b → ∃ a, m = Return a ∧ f a = Return b.
Proof. destruct m as [e|a]; [discriminate | eauto]. Qed.

(** Peel the first bind off a computation known to return. *)
Ltac bind_inv H :=
  let x := fresh "x" in
  let Hx := fresh "Hx" in
  apply bind_Return_inv in H as (x & Hx & H).

Lemma mapM_Return {A B} (f : A → result B) (g : A → B) (l : list A) :
  Forall (λ x, f x = Return (g x)) l → mapM f l = Return (map g l).
Proof.
  induction 1 as [|x l Hx _ IH]; simpl; [reflexivity|].
  rewrite Hx, bind_Return, IH. reflexivity.
Qed.

Lemma py_get_dict (fields : list (string * pyval)) (k : string) (default : pyval) :
  py_get (PDict fields) k default =
    Return (match dict_lookup k fields with Some v => v | None => default end).
Proof. unfold py_get. destruct (dict_lookup k fields); reflexivity. Qed.

(** ** [validate_username] *)

Lemma validate_username_str (name : string) :
  validate_username (PStr name) =
    if String.eqb name "" then Raise (ValidationError "Username must be a non-empty string")
    else Return tt.
Proof. unfold validate_username. simpl. destruct (String.eqb name ""); reflexivity. Qed.

Lemma validate_username_nonempty (name : string) :
  name ≠ "" → validate_username (PStr name) = Return tt.
Proof.
  intros Hne. rewrite validate_username_str.
  destruct (String.eqb name "") eqn:E; [|reflexivity].
  apply String.eqb_eq in E. contradiction.
Qed.

(** C3, as stated, fails: the claim has the validator reject a
    whitespace-only string, but a single space is a non-empty [str] and
    passes. *)
Lemma validate_username_accepts_blank :
  spec_rejects_identity (PStr " ") ∧
  validate_username (PStr " ") = Return tt ∧
  ¬ (∀ v, raises_ValidationError (validate_username v) ↔ spec_rejects_identity v).
Proof.
  assert (Hspec : spec_rejects_identity (PStr " ")).
  { right; left. exists " "%string. split; reflexivity. }
  split; [exact Hspec|]. split; [reflexivity|].
  intros H. apply H in Hspec as [message Hm]. discriminate Hm.
Qed.

(** C3, amended: the validator raises [ValidationError] exactly when the
    input is the empty string or is not a string at all, and returns
    normally exactly on the non-empty strings, whitespace-only ones
    included. *)
Theorem validate_username_rejects_iff (v : pyval) :
  (validate_username v = Raise (ValidationError "Username must be a non-empty string")
     ↔ v = PStr "" ∨ isinstance_str v = false) ∧
  (validate_username v = Return tt ↔ ∃ s, v = PStr s ∧ s ≠ "").
Proof.
  destruct v as [|b|z|s|items|fields];
    try (split; split;
         [ intros _; right; reflexivity
         | intros _; unfold validate_username; simpl;
           rewrite ?orb_true_r; reflexivity
         | unfold validate_username; simpl; rewrite ?orb_true_r; discriminate
         | intros (s' & Hs' & _); discriminate Hs' ]).
  rewrite validate_username_str.
  destruct (String.eqb s "") eqn:E.
  - apply String.eqb_eq in E. subst s. split; split.
    + intros _. left. reflexivity.
    + reflexivity.
    + discriminate.
    + intros (s' & Hs' & Hne). injection Hs' as <-. contradiction.
  - apply String.eqb_neq in E. split; split.
    + discriminate.
    + intros [H|H]; [injection H as ->; contradiction | discriminate H].
    + intros _. eauto.
    + reflexivity.
Qed.

(** ** [fetch_user_data] *)

Lemma try_except_Return_inv {A} (body : result A) handler (a : A) :
  (∀ m, handler m ≠ Return a) →
  try_except_APIError body handler = Return a → body = Return a.
Proof. intros Hh. destruct body as [[]|]; simpl; congruence. Qed.

Lemma str_join_concat (sep : string) (names : list string) :
  str_join sep (map PStr names) = Return (String.concat sep names).
Proof.
  induction names as [|n [|n' names] IH]; try reflexivity.
  change (str_join sep (map PStr (n :: n' :: names)))
    with (joined ← str_join sep (map PStr (n' :: names)); Return (n +:+ sep +:+ joined)).
  rewrite IH. reflexivity.
Qed.

Lemma display_name_get (entry : list (string * pyval)) :
  named_or_unnamed entry →
  py_get (PDict entry) "displayName" (PStr "N/A") = Return (PStr (badge_name entry)).
Proof.
  unfold named_or_unnamed, badge_name, py_get.
  destruct (dict_lookup "displayName" entry) as [[]|]; simpl;
    intros H; try reflexivity; contradiction.
Qed.

Section FetchProperties.

Variable requests_get : string → http_outcome.

Local Abbreviation profile_of name := (get_profile requests_get {| username := name |}).
Local Abbreviation badges_of name := (get_badges requests_get {| username := name |}).
Local Abbreviation solved_of name := (get_solved requests_get {| username := name |}).

Lemma _request_raises (endpoint : string) (e : exn) :
  _request requests_get endpoint = Raise e → ∃ message, e = APIError message.
Proof.
  unfold _request.
  destruct (requests_get _) as [http_err|req_err|[json|]]; intros H;
    try discriminate H; injection H as <-; eauto.
Qed.

(** With a non-empty username the constructor succeeds and the body of
    the [try] runs. *)
Lemma fetch_user_data_valid (name : string) :
  name ≠ "" →
  fetch_user_data requests_get name =
    try_except_APIError
      (profile ← profile_of name;
       badges ← badges_of name;
       solved_problems ← solved_of name;
       rating ← py_get profile "reputation" (PStr "N/A");
       solved ← py_get solved_problems "solvedProblem" (PStr "N/A");
       ranking ← py_get profile "ranking" (PStr "N/A");
       let user_data :=
         [("Username", PStr name); ("Rating", rating);
          ("Problems Solved", solved); ("Badges", PStr "N/A");
          ("Ranking", ranking)] in
       has_badges ←
         (if truthy badges
          then found ← py_get badges "badges" PNone; Return (isinstance_list found)
          else Return false);
       if (has_badges : bool) then
         listed ← py_get badges "badges" (PList []);
         entries ← py_iter listed;
         badge_names ← mapM (λ badge, py_get badge "displayName" (PStr "N/A")) entries;
         joined ← str_join ", " badge_names;
         Return (PDict (dict_set "Badges" (PStr joined) user_data))
       else Return (PDict user_data))
      (λ e, Raise (APIError ("Failed to fetch data for " +:+ name +:+ ": " +:+ e))).
Proof.
  intros Hne. unfold fetch_user_data, LeetcodeWrapper_init.
  rewrite (validate_username_nonempty name Hne). reflexivity.
Qed.

Lemma fetch_user_data_empty :
  fetch_user_data requests_get "" =
    Raise (ValidationError "Username must be a non-empty string").
Proof. reflexivity. Qed.

Lemma fetch_user_data_Return_inv (name : string) (user_data : pyval) :
  fetch_user_data requests_get name = Return user_data →
  ∃ rating solved badges ranking,
    user_data = PDict [("Username", PStr name); ("Rating", rating);
                       ("Problems Solved", solved); ("Badges", PStr badges);
                       ("Ranking", ranking)].
Proof.
  unfold fetch_user_data. intros H. bind_inv H.
  apply try_except_Return_inv in H; [|discriminate].
  do 7 bind_inv H.
  match type of H with (if ?b then _ else _) = _ => destruct b end.
  - do 4 bind_inv H. injection H as <-. simpl. eauto 10.
  - injection H as <-. eauto 10.
Qed.

(** C10: a record returned by [fetch_user_data] is an object with exactly
    the five fields Username, Rating, Problems Solved, Badges and Ranking,
    in the order the CSV writer names them, and its Username is the input
    string itself. *)
Theorem fetch_user_data_shape (name : string) (user_data : pyval) :
  fetch_user_data requests_get name = Return user_data →
  ∃ fields,
    user_data = PDict fields ∧
    map fst fields = ["Username"; "Rating"; "Problems Solved"; "Badges"; "Ranking"]%string ∧
    dict_lookup "Username" fields = Some (PStr name).
Proof.
  intros H.
  destruct (fetch_user_data_Return_inv name user_data H)
    as (rating & solved & badges & ranking & ->).
  eexists. split; [reflexivity|]. split; reflexivity.
Qed.

(** C8: when the profile lookup or the solved-count lookup fails, the
    aggregation raises an [APIError] whose message is "Failed to fetch
    data for <username>: " followed by the message of the lookup that
    failed first (profile, then badges, then solved), and no record is
    returned. *)
Theorem fetch_user_data_mandatory_failure (name : string) :
  name ≠ "" →
  (∃ e, profile_of name = Raise e) ∨ (∃ e, solved_of name = Raise e) →
  ∃ cause,
    fetch_user_data requests_get name =
      Raise (APIError ("Failed to fetch data for " +:+ name +:+ ": " +:+ cause)) ∧
    (profile_of name = Raise (APIError cause) ∨
     (∃ p, profile_of name = Return p ∧ badges_of name = Raise (APIError cause)) ∨
     (∃ p b, profile_of name = Return p ∧ badges_of name = Return b ∧
             solved_of name = Raise (APIError cause))).
Proof.
  intros Hne Hfail. rewrite (fetch_user_data_valid name Hne).
  destruct (profile_of name) as [e|p] eqn:Hp.
  { apply _request_raises in Hp as Hm. destruct Hm as [m ->].
    exists m. split; [reflexivity | left; reflexivity]. }
  destruct (badges_of name) as [e|b] eqn:Hb.
  { apply _request_raises in Hb as Hm. destruct Hm as [m ->].
    exists m. split; [reflexivity | right; left; eauto]. }
  destruct (solved_of name) as [e|s] eqn:Hs.
  { apply _request_raises in Hs as Hm. destruct Hm as [m ->].
    exists m. split; [reflexivity | right; right; eauto]. }
  destruct Hfail as [[e He]|[e He]]; discriminate He.
Qed.

(** C2, amended: a failed badges lookup is fatal.  When the profile
    lookup succeeds and the badges lookup fails, the aggregation raises an
    [APIError] wrapping the message of the badges failure; the solved
    count is not requested and no record is returned. *)
Theorem fetch_user_data_badges_failure (name : string) (p : pyval) (cause : string) :
  name ≠ "" →
  profile_of name = Return p →
  badges_of name = Raise (APIError cause) →
  fetch_user_data requests_get name =
    Raise (APIError ("Failed to fetch data for " +:+ name +:+ ": " +:+ cause)).
Proof.
  intros Hne Hp Hb. rewrite (fetch_user_data_valid name Hne), Hp, Hb. reflexivity.
Qed.

(** C7: when the three lookups return objects and the badges object
    holds a list of badge objects, the record carries the profile's
    reputation and ranking, the solved count, and the badges' display
    names in list order joined by ", "; an entry without a display name
    contributes "N/A" and is not dropped.  With reputation 1500, ranking
    200, 340 solved problems and the badges "Guardian" and "Annual
    Badge" the record is the one of the scenario. *)
Theorem fetch_user_data_record (name : string) (p s b : list (string * pyval))
    (entries : list (list (string * pyval))) :
  name ≠ "" →
  profile_of name = Return (PDict p) →
  solved_of name = Return (PDict s) →
  badges_of name = Return (PDict b) →
  dict_lookup "badges" b = Some (PList (map PDict entries)) →
  Forall named_or_unnamed entries →
  fetch_user_data requests_get name =
    Return (PDict [("Username", PStr name);
                   ("Rating", field_or_NA "reputation" p);
                   ("Problems Solved", field_or_NA "solvedProblem" s);
                   ("Badges", PStr (String.concat ", " (map badge_name entries)));
                   ("Ranking", field_or_NA "ranking" p)]).
Proof.
  intros Hne Hp Hs Hb Hl Hnames.
  rewrite (fetch_user_data_valid name Hne), Hp, Hs, Hb.
  assert (Htruthy : truthy (PDict b) = true).
  { destruct b; [discriminate Hl | reflexivity]. }
  cbn [mbind result_bind]. rewrite !py_get_dict. cbn [mbind result_bind].
  rewrite Htruthy, Hl. cbn [mbind result_bind isinstance_list py_iter].
  rewrite (mapM_Return _ (λ v, match v with
                               | PDict entry => PStr (badge_name entry)
                               | _ => PNone
                               end)).
  2:{ apply Forall_map. eapply Forall_impl; [exact Hnames|].
      intros entry Hentry. apply display_name_get, Hentry. }
  cbn [mbind result_bind]. rewrite map_map.
  rewrite <- (map_map badge_name PStr), str_join_concat. reflexivity.
Qed.

End FetchProperties.

Lemma fetch_user_data_shape_witness :
  ∃ fields,
    PDict [("Username", PStr "carol"); ("Rating", PInt 1500);
           ("Problems Solved", PInt 340);
           ("Badges", PStr "Guardian, Annual Badge");
           ("Ranking", PInt 200)] = PDict fields ∧
    map fst fields = ["Username"; "Rating"; "Problems Solved"; "Badges"; "Ranking"]%string ∧
    dict_lookup "Username" fields = Some (PStr "carol").
Proof.
  apply (fetch_user_data_shape carol_api "carol"). reflexivity.
Defined.

Lemma fetch_user_data_mandatory_failure_witness :
  ∃ cause,
    fetch_user_data carol_api "erin" =
      Raise (APIError ("Failed to fetch data for " +:+ "erin" +:+ ": " +:+ cause)) ∧
    (get_profile carol_api {| username := "erin" |} = Raise (APIError cause) ∨
     (∃ p, get_profile carol_api {| username := "erin" |} = Return p ∧
           get_badges carol_api {| username := "erin" |} = Raise (APIError cause)) ∨
     (∃ p b, get_profile carol_api {| username := "erin" |} = Return p ∧
             get_badges carol_api {| username := "erin" |} = Return b ∧
             get_solved carol_api {| username := "erin" |} = Raise (APIError cause))).
Proof.
  apply (fetch_user_data_mandatory_failure carol_api "erin").
  - discriminate.
  - left. eexists. reflexivity.
Defined.

(** C2, as stated, fails: for "dave" the profile and solved-count lookups
    succeed and the badges lookup fails, yet the aggregation raises and
    returns no record. *)
Lemma badges_failure_not_absorbed :
  get_profile dave_api {| username := "dave" |} =
    Return (PDict [("reputation", PInt 10); ("ranking", PInt 900)]) ∧
  get_solved dave_api {| username := "dave" |} =
    Return (PDict [("solvedProblem", PInt 12)]) ∧
  get_badges dave_api {| username := "dave" |} =
    Raise (APIError "HTTP error occurred: 503 Server Error") ∧
  fetch_user_data dave_api "dave" =
    Raise (APIError "Failed to fetch data for dave: HTTP error occurred: 503 Server Error") ∧
  ¬ (∀ requests_get name p s e,
       name ≠ "" →
       get_profile requests_get {| username := name |} = Return p →
       get_solved requests_get {| username := name |} = Return s →
       get_badges requests_get {| username := name |} = Raise e →
       ∃ user_data, fetch_user_data requests_get name = Return user_data).
Proof.
  repeat split; try reflexivity.
  intros H.
  destruct (H dave_api "dave"%string
              (PDict [("reputation", PInt 10); ("ranking", PInt 900)])
              (PDict [("solvedProblem", PInt 12)])
              (APIError "HTTP error occurred: 503 Server Error"))
    as [user_data Hu]; try reflexivity; discriminate.
Qed.

Lemma fetch_user_data_badges_failure_witness :
  fetch_user_data dave_api "dave" =
    Raise (APIError ("Failed to fetch data for " +:+ "dave" +:+ ": " +:+
                     "HTTP error occurred: 503 Server Error")).
Proof.
  apply (fetch_user_data_badges_failure dave_api "dave"
           (PDict [("reputation", PInt 10); ("ranking", PInt 900)])).
  - discriminate.
  - reflexivity.
  - reflexivity.
Defined.

Lemma fetch_user_data_record_witness :
  fetch_user_data carol_api "carol" =
    Return (PDict [("Username", PStr "carol"); ("Rating", PInt 1500);
                   ("Problems Solved", PInt 340);
                   ("Badges", PStr "Guardian, Annual Badge");
                   ("Ranking", PInt 200)]).
Proof.
  apply (fetch_user_data_record carol_api "carol"
           [("reputation", PInt 1500); ("ranking", PInt 200)]
           [("solvedProblem", PInt 340)]
           [("badges", PList [PDict [("displayName", PStr "Guardian")];
                              PDict [("displayName", PStr "Annual Badge")]])]
           [[("displayName", PStr "Guardian")];
            [("displayName", PStr "Annual Badge")]]).
  - discriminate.
  - reflexivity.
  - reflexivity.
  - reflexivity.
  - reflexivity.
  - repeat constructor.
Defined.

(** ** The batch loop *)

Lemma collect_reported (futures : list (string * result pyval)) (st : batch) :
  Forall (λ future, reported (snd future)) futures →
  collect futures st =
    ({| results := results st ++ omap record_of futures;
        printed := printed st ++ omap report_of futures |}, None).
Proof.
  intros H. revert st. induction H as [|[name outcome] futures Hf _ IH]; intros st.
  - simpl. rewrite !app_nil_r. destruct st; reflexivity.
  - destruct outcome as [[e|e| |]|user_data]; simpl in Hf; try contradiction;
      simpl; rewrite IH; simpl; rewrite <- ?app_assoc; reflexivity.
Qed.

Lemma omap_record_report_length (futures : list (string * result pyval)) :
  Forall (λ future, reported (snd future)) futures →
  (length (omap record_of futures) + length (omap report_of futures) = length futures)%nat.
Proof.
  induction 1 as [|[name outcome] futures Hf _ IH]; [reflexivity|].
  destruct outcome as [[e|e| |]|user_data]; simpl in Hf; try contradiction;
    cbn; rewrite ?length_cons; lia.
Qed.

Lemma display_names_ok (entries : list pyval) :
  forallb entry_ok entries = true →
  ∃ names, mapM (λ badge, py_get badge "displayName" (PStr "N/A")) entries
           = Return (map PStr names).
Proof.
  intros Hok.
  exists (map (λ v, match v with PDict entry => badge_name entry | _ => "N/A"%string end)
              entries).
  rewrite map_map. apply mapM_Return.
  apply Forall_forall. intros entry Hin. apply list_elem_of_In in Hin.
  rewrite forallb_forall in Hok. specialize (Hok entry Hin).
  destruct entry as [| | | | |fields]; try discriminate Hok.
  apply display_name_get. unfold named_or_unnamed. simpl in Hok.
  destruct (dict_lookup "displayName" fields) as [[]|]; try discriminate Hok; exact I.
Qed.

Lemma payloads_ok_reported (requests_get : string → http_outcome) (name : string) :
  payloads_ok requests_get name = true →
  reported (fetch_user_data requests_get name).
Proof.
  unfold payloads_ok. intros Hok.
  apply andb_prop in Hok as [Hok Hs]. apply andb_prop in Hok as [Hp Hb].
  destruct (String.eqb name "") eqn:Hempty.
  { apply String.eqb_eq in Hempty. subst name. exact I. }
  apply String.eqb_neq in Hempty. rewrite (fetch_user_data_valid _ name Hempty).
  destruct (get_profile requests_get _) as [e|p] eqn:Ep.
  { apply _request_raises in Ep as [m ->]. exact I. }
  destruct (get_badges requests_get _) as [e|b] eqn:Eb.
  { apply _request_raises in Eb as [m ->]. exact I. }
  destruct (get_solved requests_get _) as [e|s] eqn:Es.
  { apply _request_raises in Es as [m ->]. exact I. }
  destruct p as [| | | | |fp]; try discriminate Hp.
  destruct s as [| | | | |fs]; try discriminate Hs.
  cbn [mbind result_bind]. rewrite !py_get_dict. cbn [mbind result_bind].
  destruct (truthy b) eqn:Hb'.
  2:{ exact I. }
  destruct b as [| | | | |fb];
    try (unfold badges_ok in Hb; rewrite Hb' in Hb; discriminate Hb).
  simpl in Hb. rewrite !py_get_dict.
  destruct (dict_lookup "badges" fb) as [[| | | |entries|]|]; try exact I.
  cbn [mbind result_bind isinstance_list py_iter].
  destruct (display_names_ok entries Hb) as [names ->].
  cbn [mbind result_bind]. rewrite str_join_concat. exact I.
Qed.

(** C1, as stated, fails: with a profile body that is not an object the
    task for "eve" ends in an [AttributeError], which the loop has no
    branch for; the loop stops, and neither "eve" nor "frank" gets a
    record or a printed line. *)
Lemma main_fetch_stops_on_malformed_payload :
  fetch_user_data eve_api "eve" = Raise AttributeError ∧
  main_fetch eve_api ["eve"; "frank"]%string =
    ({| results := []; printed := [] |}, Some AttributeError) ∧
  ¬ (∀ requests_get usernames,
       usernames ≠ [] →
       Forall (λ name, validate_username (PStr name) = Return tt) usernames →
       (length (results (fst (main_fetch requests_get usernames))) +
        length (printed (fst (main_fetch requests_get usernames))) =
        length usernames)%nat).
Proof.
  split; [reflexivity|]. split; [reflexivity|].
  intros H. specialize (H eve_api ["eve"; "frank"]%string).
  assert (Hlen : (0 + 0 = 2)%nat); [|discriminate Hlen].
  apply H; [discriminate|]. repeat constructor.
Qed.

(** C1, amended: when the payloads the API returns have the shapes
    [fetch_user_data] can read, the loop runs to its end and every
    username is accounted for exactly once: the records are the returned
    records in submission order, the printed lines are the reports of the
    failed tasks in submission order, their numbers add up to the number
    of usernames, and each username has a record carrying it or a printed
    line naming it. *)
Theorem main_fetch_accounts (requests_get : string → http_outcome)
    (usernames : list string) :
  Forall (λ name, payloads_ok requests_get name = true) usernames →
  ∃ st,
    main_fetch requests_get usernames = (st, None) ∧
    results st = omap record_of (submit_all requests_get usernames) ∧
    printed st = omap report_of (submit_all requests_get usernames) ∧
    (length (results st) + length (printed st) = length usernames)%nat ∧
    ∀ name, name ∈ usernames →
      (∃ rating solved badges ranking,
         PDict [("Username", PStr name); ("Rating", rating);
                ("Problems Solved", solved); ("Badges", PStr badges);
                ("Ranking", ranking)] ∈ results st) ∨
      (∃ e, ("Error fetching data for " +:+ name +:+ ": " +:+ e) ∈ printed st) ∨
      (∃ e, ("Validation error for " +:+ name +:+ ": " +:+ e) ∈ printed st).
Proof.
  intros Hok.
  assert (Hrep : Forall (λ future, reported (snd future))
                   (submit_all requests_get usernames)).
  { unfold submit_all. apply Forall_map. eapply Forall_impl; [exact Hok|].
    intros name Hname. simpl. apply payloads_ok_reported, Hname. }
  eexists. split; [|split; [|split; [|split]]].
  - unfold main_fetch. rewrite (collect_reported _ _ Hrep). reflexivity.
  - reflexivity.
  - reflexivity.
  - simpl. rewrite (omap_record_report_length _ Hrep).
    unfold submit_all. apply length_map.
  - intros name Hin. simpl.
    assert (Hfut : (name, fetch_user_data requests_get name)
                     ∈ submit_all requests_get usernames).
    { unfold submit_all.
      apply (list_elem_of_fmap_2 (λ name, (name, fetch_user_data requests_get name))).
      exact Hin. }
    rewrite Forall_forall in Hrep. specialize (Hrep _ Hfut). simpl in Hrep.
    destruct (fetch_user_data requests_get name) as [[e|e| |]|user_data] eqn:Hfetch;
      try contradiction.
    + right; left. exists e. apply list_elem_of_omap.
      exists (name, Raise (APIError e)). split; [exact Hfut | reflexivity].
    + right; right. exists e. apply list_elem_of_omap.
      exists (name, Raise (ValidationError e)). split; [exact Hfut | reflexivity].
    + left. destruct (fetch_user_data_Return_inv _ _ _ Hfetch)
        as (rating & solved & badges & ranking & ->).
      exists rating, solved, badges, ranking. apply list_elem_of_omap.
      eexists. split; [exact Hfut | reflexivity].
Qed.

Lemma main_fetch_accounts_witness :
  ∃ st,
    main_fetch carol_api ["carol"; "erin"; ""; "carol"]%string = (st, None) ∧
    results st = omap record_of (submit_all carol_api ["carol"; "erin"; ""; "carol"]%string) ∧
    printed st = omap report_of (submit_all carol_api ["carol"; "erin"; ""; "carol"]%string) ∧
    (length (results st) + length (printed st) = 4)%nat ∧
    ∀ name, name ∈ ["carol"; "erin"; ""; "carol"]%string →
      (∃ rating solved badges ranking,
         PDict [("Username", PStr name); ("Rating", rating);
                ("Problems Solved", solved); ("Badges", PStr badges);
                ("Ranking", ranking)] ∈ results st) ∨
      (∃ e, ("Error fetching data for " +:+ name +:+ ": " +:+ e) ∈ printed st) ∨
      (∃ e, ("Validation error for " +:+ name +:+ ": " +:+ e) ∈ printed st).
Proof.
  apply (main_fetch_accounts carol_api ["carol"; "erin"; ""; "carol"]%string).
  repeat constructor.
Defined.

(** ** Ordering of keys *)

Lemma string_ltb_asym (s t : string) : String.ltb s t = true → String.ltb t s = false.
Proof.
  unfold String.ltb. rewrite (String.compare_antisym t s).
  destruct (String.compare s t); simpl; congruence.
Qed.

Lemma string_compare_Gt_lt (s t : string) :
  String.compare s t = Gt → String_as_OT.lt t s.
Proof.
  intros H. apply String_as_OT.cmp_lt. unfold String_as_OT.cmp.
  rewrite String.compare_antisym, H. reflexivity.
Qed.

Lemma string_ltb_ge_trans (s t u : string) :
  String.ltb s t = false → String.ltb t u = false → String.ltb s u = false.
Proof.
  unfold String.ltb. intros Hst Htu.
  destruct (String.compare s u) eqn:Hsu; try reflexivity. exfalso.
  apply String_as_OT.cmp_lt in Hsu.
  destruct (String.compare s t) eqn:Est; try discriminate Hst.
  - apply String_as_OT.cmp_eq in Est. subst t.
    apply String_as_OT.cmp_lt in Hsu. unfold String_as_OT.cmp in Hsu.
    rewrite Hsu in Htu. discriminate Htu.
  - apply string_compare_Gt_lt in Est.
    destruct (String.compare t u) eqn:Etu; try discriminate Htu.
    + apply String_as_OT.cmp_eq in Etu. subst u.
      eapply String_as_OT.lt_not_eq; [exact (String_as_OT.lt_trans _ _ _ Est Hsu)|].
      reflexivity.
    + apply string_compare_Gt_lt in Etu.
      eapply String_as_OT.lt_not_eq;
        [exact (String_as_OT.lt_trans _ _ _ Etu (String_as_OT.lt_trans _ _ _ Est Hsu))|].
      reflexivity.
Qed.

Lemma py_lt_scalar (a b : pyval) :
  scalar a = true →
  py_lt a b =
    match as_number a, as_number b with
    | Some x, Some y => Some (x <? y)
    | _, _ => match a, b with
              | PStr s, PStr t => Some (String.ltb s t)
              | _, _ => None
              end
    end.
Proof. destruct a, b; try discriminate; reflexivity. Qed.

Lemma py_lt_defined_kind (a b : pyval) (c : bool) :
  py_lt a b = Some c → is_numeric a = is_numeric b.
Proof. destruct a, b; simpl; try discriminate; reflexivity. Qed.

Lemma py_lt_same_kind (a b : pyval) :
  scalar a = true → scalar b = true → is_numeric a = is_numeric b →
  ∃ c, py_lt a b = Some c.
Proof. destruct a, b; simpl; try discriminate; eauto. Qed.

Lemma py_lt_asym (a b : pyval) :
  scalar a = true → py_lt a b = Some true → py_lt b a = Some false.
Proof.
  destruct a, b; simpl; try discriminate; intros _ H; injection H as H; f_equal;
    try (apply string_ltb_asym; exact H);
    repeat match goal with b : bool |- _ => destruct b end; lia.
Qed.

Lemma py_lt_ge_trans (a b c : pyval) :
  scalar a = true →
  py_lt a b = Some false → py_lt b c = Some false → py_lt a c = Some false.
Proof.
  destruct a, b; simpl; try discriminate; destruct c; simpl; try discriminate;
    intros _ H1 H2; injection H1 as H1; injection H2 as H2; f_equal;
    try (eapply string_ltb_ge_trans; eassumption);
    repeat match goal with b : bool |- _ => destruct b end; lia.
Qed.

(** ** The sort on decorated lists *)

Lemma insert_desc_cons_inv (kx ky : pyval * pyval) (rest l' : list (pyval * pyval)) :
  insert_desc kx (ky :: rest) = Return l' →
  (py_lt (fst kx) (fst ky) = Some false ∧ l' = kx :: ky :: rest) ∨
  (py_lt (fst kx) (fst ky) = Some true ∧
   ∃ rest', insert_desc kx rest = Return rest' ∧ l' = ky :: rest').
Proof.
  simpl. destruct (py_lt (fst kx) (fst ky)) as [[]|]; intros H.
  - right. split; [reflexivity|].
    apply bind_Return_inv in H as (rest' & Hrest & H). injection H as <-. eauto.
  - left. injection H as <-. auto.
  - discriminate H.
Qed.

Lemma insert_desc_perm (kx : pyval * pyval) (l l' : list (pyval * pyval)) :
  insert_desc kx l = Return l' → Permutation (kx :: l) l'.
Proof.
  revert l'. induction l as [|ky rest IH]; intros l' H.
  - injection H as <-. reflexivity.
  - apply insert_desc_cons_inv in H as [[_ ->]|(_ & rest' & Hrest & ->)].
    + reflexivity.
    + rewrite perm_swap. apply perm_skip, IH, Hrest.
Qed.

Lemma sort_desc_cons_inv (kx : pyval * pyval) (rest l' : list (pyval * pyval)) :
  sort_desc (kx :: rest) = Return l' →
  ∃ sorted, sort_desc rest = Return sorted ∧ insert_desc kx sorted = Return l'.
Proof. simpl. apply bind_Return_inv. Qed.

Lemma sort_desc_perm (l l' : list (pyval * pyval)) :
  sort_desc l = Return l' → Permutation l l'.
Proof.
  revert l'. induction l as [|kx rest IH]; intros l' H.
  - injection H as <-. reflexivity.
  - apply sort_desc_cons_inv in H as (sorted & Hs & Hi).
    rewrite <- (insert_desc_perm _ _ _ Hi). apply perm_skip, IH, Hs.
Qed.

Lemma insert_desc_raises (kx : pyval * pyval) (l : list (pyval * pyval)) (e : exn) :
  insert_desc kx l = Raise e → e = TypeError.
Proof.
  induction l as [|ky rest IH]; simpl; [discriminate|].
  destruct (py_lt (fst kx) (fst ky)) as [[]|].
  - destruct (insert_desc kx rest); simpl; [|discriminate].
    intros H. injection H as <-. apply IH. reflexivity.
  - discriminate.
  - intros H. injection H as <-. reflexivity.
Qed.

Lemma sort_desc_raises (l : list (pyval * pyval)) (e : exn) :
  sort_desc l = Raise e → e = TypeError.
Proof.
  induction l as [|kx rest IH]; simpl; [discriminate|].
  destruct (sort_desc rest) as [e'|sorted]; simpl.
  - intros H. injection H as <-. apply IH. reflexivity.
  - apply insert_desc_raises.
Qed.

(** A sort that returns has compared keys of one kind only. *)
Lemma sort_desc_kind (l l' : list (pyval * pyval)) :
  sort_desc l = Return l' →
  ∃ b, Forall (λ x, is_numeric (fst x) = b) l.
Proof.
  revert l'. induction l as [|kx rest IH]; intros l' H.
  - exists true. constructor.
  - apply sort_desc_cons_inv in H as (sorted & Hs & Hi).
    destruct (IH _ Hs) as [b Hb].
    destruct sorted as [|ky sorted'].
    + apply sort_desc_perm, Permutation_sym, Permutation_nil in Hs. subst rest.
      exists (is_numeric (fst kx)). repeat constructor.
    + exists b. constructor; [|exact Hb].
      assert (Hky : is_numeric (fst ky) = b).
      { rewrite Forall_forall in Hb. apply Hb. apply list_elem_of_In.
        eapply Permutation_in; [symmetry; apply sort_desc_perm, Hs | left; reflexivity]. }
      rewrite <- Hky.
      apply insert_desc_cons_inv in Hi as [[Hlt _]|[Hlt _]];
        eapply py_lt_defined_kind; exact Hlt.
Qed.

Lemma insert_desc_total (b : bool) (kx : pyval * pyval) (l : list (pyval * pyval)) :
  Forall (λ x, scalar (fst x) = true ∧ is_numeric (fst x) = b) (kx :: l) →
  ∃ l', insert_desc kx l = Return l'.
Proof.
  intros H. apply Forall_cons in H as [[Hsx Hkx] Hl].
  induction Hl as [|ky rest [Hsy Hky] _ IH]; simpl; [eauto|].
  destruct (py_lt_same_kind (fst kx) (fst ky)) as [[] ->]; auto; [congruence| |eauto].
  destruct IH as [rest' ->]. simpl. eauto.
Qed.

Lemma sort_desc_total (b : bool) (l : list (pyval * pyval)) :
  Forall (λ x, scalar (fst x) = true ∧ is_numeric (fst x) = b) l →
  ∃ l', sort_desc l = Return l'.
Proof.
  induction 1 as [|kx rest Hx Hrest IH]; simpl; [eauto|].
  destruct IH as [sorted Hs]. rewrite Hs. simpl.
  apply (insert_desc_total b). constructor; [exact Hx|].
  rewrite Forall_forall in *. intros y Hy. apply Hrest.
  apply list_elem_of_In. apply list_elem_of_In in Hy.
  eapply Permutation_in; [symmetry; apply sort_desc_perm, Hs | exact Hy].
Qed.

Lemma insert_desc_sorted (kx : pyval * pyval) (l l' : list (pyval * pyval)) :
  scalar (fst kx) = true →
  Forall (λ x, scalar (fst x) = true) l →
  StronglySorted key_ge l →
  insert_desc kx l = Return l' →
  StronglySorted key_ge l'.
Proof.
  intros Hsx. revert l'. induction l as [|ky rest IH]; intros l' Hsc Hsorted H.
  - injection H as <-. repeat constructor.
  - apply Forall_cons in Hsc as [Hsy Hsc].
    apply StronglySorted_inv in Hsorted as [Hrest Hky].
    apply insert_desc_cons_inv in H as [[Hlt ->]|(Hlt & rest' & Hrest' & ->)].
    + constructor; [constructor; assumption|].
      constructor; [exact Hlt|].
      eapply List.Forall_impl; [|exact Hky].
      intros z Hz. unfold key_ge in *. eapply py_lt_ge_trans; eassumption.
    + constructor; [apply IH; assumption|].
      apply List.Forall_forall. intros z Hz.
      eapply Permutation_in in Hz; [|symmetry; apply insert_desc_perm, Hrest'].
      destruct Hz as [<-|Hz].
      * unfold key_ge. apply py_lt_asym; assumption.
      * rewrite List.Forall_forall in Hky. apply Hky, Hz.
Qed.

Lemma sort_desc_sorted (l l' : list (pyval * pyval)) :
  Forall (λ x, scalar (fst x) = true) l →
  sort_desc l = Return l' →
  StronglySorted key_ge l'.
Proof.
  intros Hsc. revert l'. induction Hsc as [|kx rest Hx Hrest IH]; intros l' H.
  - injection H as <-. constructor.
  - apply sort_desc_cons_inv in H as (sorted & Hs & Hi).
    eapply insert_desc_sorted; [exact Hx| |apply IH, Hs|exact Hi].
    rewrite Forall_forall in *. intros y Hy. apply Hrest.
    apply list_elem_of_In. apply list_elem_of_In in Hy.
    eapply Permutation_in; [symmetry; apply sort_desc_perm, Hs | exact Hy].
Qed.

Lemma insert_desc_filter (P : pyval * pyval → bool) (kx : pyval * pyval)
    (l l' : list (pyval * pyval)) :
  (∀ ky, P kx = true → P ky = true → py_lt (fst kx) (fst ky) ≠ Some true) →
  insert_desc kx l = Return l' →
  List.filter P l' = List.filter P (kx :: l).
Proof.
  intros Hties. revert l'. induction l as [|ky rest IH]; intros l' H.
  - injection H as <-. reflexivity.
  - apply insert_desc_cons_inv in H as [[_ ->]|(Hlt & rest' & Hrest' & ->)];
      [reflexivity|].
    simpl. rewrite (IH _ Hrest'). simpl.
    destruct (P kx) eqn:Hx, (P ky) eqn:Hy; try reflexivity.
    exfalso. exact (Hties ky eq_refl Hy Hlt).
Qed.

Lemma string_ltb_irrefl (s : string) : String.ltb s s = false.
Proof.
  destruct (String.ltb s s) eqn:H; [|reflexivity].
  rewrite (string_ltb_asym s s H) in H. discriminate H.
Qed.

(** Every number and every string is tied with itself, so the classes
    of tied keys cover the scalar keys. *)
Lemma tied_refl (a : pyval) : scalar a = true → tied a a = true.
Proof.
  unfold tied. intros Hs. rewrite (py_lt_scalar a a Hs).
  destruct a as [|b|z|s|l|d]; try discriminate Hs; simpl.
  - destruct b; reflexivity.
  - rewrite Z.ltb_irrefl. reflexivity.
  - rewrite string_ltb_irrefl. reflexivity.
Qed.

Lemma tied_not_lt (k a b : pyval) :
  scalar a = true → tied k a = true → tied k b = true → py_lt a b ≠ Some true.
Proof.
  unfold tied. intros Hs Ha Hb.
  destruct (py_lt k a) as [[]|] eqn:Hka; try discriminate Ha.
  destruct (py_lt a k) as [[]|] eqn:Hak; try discriminate Ha.
  destruct (py_lt k b) as [[]|] eqn:Hkb; try discriminate Hb.
  rewrite (py_lt_ge_trans a k b Hs Hak Hkb). discriminate.
Qed.

Lemma sort_desc_stable (k : pyval) (l l' : list (pyval * pyval)) :
  Forall (λ x, scalar (fst x) = true) l →
  sort_desc l = Return l' →
  List.filter (λ x, tied k (fst x)) l' = List.filter (λ x, tied k (fst x)) l.
Proof.
  intros Hsc. revert l'. induction Hsc as [|kx rest Hx Hrest IH]; intros l' H.
  - injection H as <-. reflexivity.
  - apply sort_desc_cons_inv in H as (sorted & Hs & Hi).
    rewrite (insert_desc_filter _ kx sorted l'); [|intros ky; apply tied_not_lt, Hx|exact Hi].
    simpl. rewrite (IH _ Hs). reflexivity.
Qed.

(** Sorting a list that is already in descending order changes nothing. *)
Lemma sort_desc_sorted_id (l : list (pyval * pyval)) :
  StronglySorted key_ge l → sort_desc l = Return l.
Proof.
  induction 1 as [|kx rest Hrest IH Hkx]; [reflexivity|].
  simpl. rewrite IH. simpl.
  destruct Hkx as [|ky rest' Hky _]; [reflexivity|].
  simpl. unfold key_ge in Hky. rewrite Hky. reflexivity.
Qed.

(** ** [sorted] on records *)

Lemma zip_decorate {A B} (f : A → B) (l : list A) :
  zip (map f l) l = map (λ x, (f x, x)) l.
Proof. induction l as [|x l IH]; simpl; [reflexivity | rewrite IH; reflexivity]. Qed.

Lemma sorted_reverse_records (field : string) (data : list pyval) :
  Forall (λ r, isinstance_dict r = true) data →
  sorted_reverse (λ x, py_get x field (PInt 0)) data =
    sorted ← sort_desc (map (decorate field) data); Return (map snd sorted).
Proof.
  intros Hd. unfold sorted_reverse.
  rewrite (mapM_Return _ (rank_key field)).
  - cbn [mbind result_bind]. rewrite zip_decorate. reflexivity.
  - eapply Forall_impl; [exact Hd|].
    intros [| | | | |fields]; try discriminate. intros _. apply py_get_dict.
Qed.

Lemma decorated_undecorate (field : string) (data : list pyval)
    (sorted : list (pyval * pyval)) :
  Permutation (map (decorate field) data) sorted →
  sorted = map (decorate field) (map snd sorted).
Proof.
  intros Hperm.
  assert (H : List.Forall (λ x, x = decorate field (snd x)) sorted).
  { apply List.Forall_forall. intros x Hx.
    eapply Permutation_in in Hx; [|symmetry; exact Hperm].
    apply in_map_iff in Hx as (r & <- & _). reflexivity. }
  clear Hperm. induction H as [|x sorted' Hx _ IH]; [reflexivity|].
  simpl. rewrite <- Hx. f_equal. exact IH.
Qed.

Lemma filter_decorate (P : pyval → bool) (field : string) (l : list pyval) :
  map snd (List.filter (λ x, P (fst x)) (map (decorate field) l)) =
  List.filter (λ r, P (rank_key field r)) l.
Proof.
  induction l as [|r l IH]; [reflexivity|].
  simpl. destruct (P (rank_key field r)); simpl; rewrite IH; reflexivity.
Qed.

Lemma StronglySorted_decorate (field : string) (view : list pyval) :
  StronglySorted key_ge (map (decorate field) view) ↔
  StronglySorted (λ r r', py_lt (rank_key field r) (rank_key field r') = Some false) view.
Proof.
  induction view as [|r view IH]; simpl.
  - split; constructor.
  - split; intros H; apply StronglySorted_inv in H as [Hs Hf];
      (constructor; [apply IH, Hs|]).
    + apply List.Forall_forall. intros r' Hr'.
      rewrite List.Forall_forall in Hf. apply (Hf (decorate field r')).
      apply in_map, Hr'.
    + apply List.Forall_forall. intros x Hx.
      apply in_map_iff in Hx as (r' & <- & Hr').
      rewrite List.Forall_forall in Hf. apply Hf, Hr'.
Qed.

Lemma rankable_dicts (field : string) (data : list pyval) :
  Forall (rankable field) data → Forall (λ r, isinstance_dict r = true) data.
Proof. intros H. eapply Forall_impl; [exact H|]. intros r [Hd _]. exact Hd. Qed.

Lemma rankable_decorated (field : string) (data : list pyval) :
  Forall (rankable field) data →
  Forall (λ x, scalar (fst x) = true) (map (decorate field) data).
Proof.
  intros H. apply Forall_map. eapply Forall_impl; [exact H|].
  intros r [_ Hs]. exact Hs.
Qed.

Lemma profile_record_rankable (data : list pyval) :
  Forall (λ r, profile_record r = true) data →
  Forall (rankable "Rating") data ∧ Forall (rankable "Problems Solved") data.
Proof.
  intros H. split; (eapply Forall_impl; [exact H|]); intros r Hr;
    unfold profile_record in Hr;
    apply andb_prop in Hr as [Hr H2]; apply andb_prop in Hr as [Hd H1];
    split; assumption.
Qed.

Lemma sorted_reverse_Return_inv (field : string) (data view : list pyval) :
  Forall (λ r, isinstance_dict r = true) data →
  sorted_reverse (λ x, py_get x field (PInt 0)) data = Return view →
  ∃ sorted, sort_desc (map (decorate field) data) = Return sorted ∧
            view = map snd sorted ∧ sorted = map (decorate field) view.
Proof.
  intros Hd H. rewrite (sorted_reverse_records field data Hd) in H.
  apply bind_Return_inv in H as (sorted & Hs & H). injection H as <-.
  exists sorted. split; [exact Hs|]. split; [reflexivity|].
  eapply decorated_undecorate, sort_desc_perm, Hs.
Qed.

Lemma sorted_reverse_stable (field : string) (data view : list pyval) :
  Forall (rankable field) data →
  sorted_reverse (λ x, py_get x field (PInt 0)) data = Return view →
  stable_descending (rank_key field) data view.
Proof.
  intros Hr H.
  destruct (sorted_reverse_Return_inv field data view (rankable_dicts _ _ Hr) H)
    as (sorted & Hs & Hview & Hsorted).
  pose proof (rankable_decorated field data Hr) as Hsc.
  split.
  - rewrite Hview. rewrite <- (sort_desc_perm _ _ Hs), map_map.
    simpl. rewrite map_id. reflexivity.
  - apply StronglySorted_decorate. rewrite <- Hsorted.
    eapply sort_desc_sorted; eassumption.
  - intros k. rewrite <- (filter_decorate (tied k) field view), <- Hsorted.
    rewrite (sort_desc_stable k _ _ Hsc Hs). apply filter_decorate.
Qed.

Lemma sorted_reverse_kind (field : string) (data view : list pyval) :
  Forall (λ r, isinstance_dict r = true) data →
  sorted_reverse (λ x, py_get x field (PInt 0)) data = Return view →
  one_kind field data = true.
Proof.
  intros Hd H.
  destruct (sorted_reverse_Return_inv field data view Hd H) as (sorted & Hs & _).
  destruct (sort_desc_kind _ _ Hs) as [b Hb].
  apply Forall_map in Hb. unfold one_kind. apply orb_true_iff.
  destruct b; [left|right]; apply forallb_forall; intros r Hr;
    rewrite Forall_forall in Hb; apply list_elem_of_In in Hr;
    specialize (Hb r Hr); simpl in Hb; rewrite Hb; reflexivity.
Qed.

Lemma sorted_reverse_total (field : string) (data : list pyval) :
  Forall (rankable field) data →
  one_kind field data = true →
  ∃ view, sorted_reverse (λ x, py_get x field (PInt 0)) data = Return view.
Proof.
  intros Hr Hk. rewrite (sorted_reverse_records field data (rankable_dicts _ _ Hr)).
  assert (Hb : ∃ b, Forall (λ x, scalar (fst x) = true ∧ is_numeric (fst x) = b)
                      (map (decorate field) data)).
  { unfold one_kind in Hk. apply orb_true_iff in Hk as [Hk|Hk];
      [exists true | exists false]; apply Forall_map, Forall_forall;
      intros r Hin; rewrite forallb_forall in Hk;
      rewrite Forall_forall in Hr; destruct (Hr r Hin) as [_ Hs];
      apply list_elem_of_In in Hin; specialize (Hk r Hin); simpl;
      (split; [exact Hs|]).
    - exact Hk.
    - apply negb_true_iff, Hk. }
  destruct Hb as [b Hb]. destruct (sort_desc_total b _ Hb) as [sorted ->].
  simpl. eauto.
Qed.

Lemma sorted_reverse_raises (field : string) (data : list pyval) (e : exn) :
  Forall (λ r, isinstance_dict r = true) data →
  sorted_reverse (λ x, py_get x field (PInt 0)) data = Raise e →
  e = TypeError.
Proof.
  intros Hd. rewrite (sorted_reverse_records field data Hd).
  destruct (sort_desc _) as [e'|sorted] eqn:Hs; simpl; [|discriminate].
  intros H. injection H as <-. eapply sort_desc_raises, Hs.
Qed.

Lemma sorted_reverse_sorted_id (field : string) (view : list pyval) :
  Forall (λ r, isinstance_dict r = true) view →
  StronglySorted (λ r r', py_lt (rank_key field r) (rank_key field r') = Some false) view →
  sorted_reverse (λ x, py_get x field (PInt 0)) view = Return view.
Proof.
  intros Hd Hs. rewrite (sorted_reverse_records field view Hd).
  apply StronglySorted_decorate in Hs. rewrite (sort_desc_sorted_id _ Hs).
  simpl. rewrite map_map. simpl. rewrite map_id. reflexivity.
Qed.

Lemma one_kind_perm (field : string) (data view : list pyval) :
  Permutation data view → one_kind field data = one_kind field view.
Proof.
  intros Hp. unfold one_kind.
  assert (Hf : ∀ f : pyval → bool, forallb f data = forallb f view).
  { intros f. apply eq_true_iff_eq. rewrite !forallb_forall.
    split; intros H x Hx; apply H; eapply Permutation_in; try exact Hx;
      [symmetry; exact Hp | exact Hp]. }
  rewrite !Hf. reflexivity.
Qed.

Lemma mixed_not_one_kind (field : string) (data : list pyval) :
  mixed field data → one_kind field data = false.
Proof.
  intros (r1 & r2 & z & H1 & H2 & Hna & Hz). unfold one_kind.
  apply orb_false_iff. split; apply not_true_is_false; intros H;
    rewrite forallb_forall in H.
  - specialize (H r1 H1). rewrite Hna in H. discriminate H.
  - specialize (H r2 H2). rewrite Hz in H. discriminate H.
Qed.

(** ** [rank_users] *)

Lemma rank_users_Return_inv (data v1 v2 : list pyval) :
  rank_users data = Return (v1, v2) →
  sorted_reverse (λ x, py_get x "Rating" (PInt 0)) data = Return v1 ∧
  sorted_reverse (λ x, py_get x "Problems Solved" (PInt 0)) data = Return v2.
Proof.
  unfold rank_users. intros H.
  apply bind_Return_inv in H as (w1 & H1 & H).
  apply bind_Return_inv in H as (w2 & H2 & H).
  injection H as <- <-. auto.
Qed.

Lemma profile_record_perm (data view : list pyval) :
  Permutation data view →
  Forall (λ r, profile_record r = true) data →
  Forall (λ r, profile_record r = true) view.
Proof.
  intros Hp H. rewrite Forall_forall in *. intros r Hr. apply H.
  apply list_elem_of_In. apply list_elem_of_In in Hr.
  eapply Permutation_in; [symmetry; exact Hp | exact Hr].
Qed.

(** C4: a record whose ranking field is unavailable is not ranked below
    the records with a number there.  On every batch in which a ranking
    field is the "N/A" placeholder on one record and an integer on
    another, [sorted] compares a string with an integer: [rank_users]
    raises [TypeError] and produces no ranked view at all. *)
Theorem rank_users_mixed_raises (data : list pyval) :
  Forall (λ r, profile_record r = true) data →
  mixed "Rating" data ∨ mixed "Problems Solved" data →
  rank_users data = Raise TypeError.
Proof.
  intros Hrec Hmixed.
  destruct (profile_record_rankable data Hrec) as [Hr1 Hr2].
  pose proof (rankable_dicts _ _ Hr1) as Hd.
  unfold rank_users.
  destruct (sorted_reverse (λ x, py_get x "Rating" (PInt 0)) data) as [e|v1] eqn:H1.
  { apply sorted_reverse_raises in H1; [subst e; reflexivity | exact Hd]. }
  cbn [mbind result_bind].
  destruct (sorted_reverse (λ x, py_get x "Problems Solved" (PInt 0)) data)
    as [e|v2] eqn:H2.
  { apply sorted_reverse_raises in H2; [subst e; reflexivity | exact Hd]. }
  exfalso.
  apply sorted_reverse_kind in H1; [|exact Hd].
  apply sorted_reverse_kind in H2; [|exact Hd].
  destruct Hmixed as [Hm|Hm]; apply mixed_not_one_kind in Hm; congruence.
Qed.

Lemma rank_users_mixed_raises_witness :
  rank_users unrated_batch = Raise TypeError.
Proof.
  apply (rank_users_mixed_raises unrated_batch).
  - repeat constructor.
  - left. exists (user_record "ann" (PStr "N/A") (PInt 1)),
                 (user_record "bob" (PInt 1500) (PInt 340)), 1500.
    simpl. auto.
Defined.

(** C5: ranking is a stable descending sort.  On every list of records
    for which [rank_users] returns, each view holds the same records in
    descending order of its field, records with tied values in the order
    they have in the input; and [rank_users] does return whenever the
    values of each field are all numbers or all strings. *)
Theorem rank_users_stable (data : list pyval) :
  Forall (λ r, profile_record r = true) data →
  (one_kind "Rating" data = true → one_kind "Problems Solved" data = true →
   ∃ v1 v2, rank_users data = Return (v1, v2)) ∧
  (∀ v1 v2, rank_users data = Return (v1, v2) →
     stable_descending (rank_key "Rating") data v1 ∧
     stable_descending (rank_key "Problems Solved") data v2).
Proof.
  intros Hrec. destruct (profile_record_rankable data Hrec) as [Hr1 Hr2]. split.
  - intros Hk1 Hk2. unfold rank_users.
    destruct (sorted_reverse_total "Rating" data Hr1 Hk1) as [v1 ->].
    destruct (sorted_reverse_total "Problems Solved" data Hr2 Hk2) as [v2 ->].
    simpl. eauto.
  - intros v1 v2 H. apply rank_users_Return_inv in H as [H1 H2].
    split; apply sorted_reverse_stable; assumption.
Qed.

Lemma rank_users_stable_witness :
  stable_descending (rank_key "Rating") three_users
    [user_record "bob" (PInt 5) (PInt 1);
     user_record "ann" (PInt 3) (PInt 1);
     user_record "cat" (PInt 3) (PInt 7)] ∧
  stable_descending (rank_key "Problems Solved") three_users
    [user_record "cat" (PInt 3) (PInt 7);
     user_record "ann" (PInt 3) (PInt 1);
     user_record "bob" (PInt 5) (PInt 1)].
Proof.
  apply (rank_users_stable three_users).
  - repeat constructor.
  - reflexivity.
Defined.

(** C6: ranking is idempotent.  Ranking a view again by the field it was
    ranked by returns the same view. *)
Theorem rank_users_idempotent (data v1 v2 : list pyval) :
  Forall (λ r, profile_record r = true) data →
  rank_users data = Return (v1, v2) →
  (∃ w, rank_users v1 = Return (v1, w)) ∧ (∃ w, rank_users v2 = Return (w, v2)).
Proof.
  intros Hrec H. destruct (profile_record_rankable data Hrec) as [Hr1 Hr2].
  apply rank_users_Return_inv in H as [H1 H2].
  pose proof (sorted_reverse_stable _ _ _ Hr1 H1) as [Hp1 Hs1 _].
  pose proof (sorted_reverse_stable _ _ _ Hr2 H2) as [Hp2 Hs2 _].
  pose proof (sorted_reverse_kind _ _ _ (rankable_dicts _ _ Hr1) H1) as Hk1.
  pose proof (sorted_reverse_kind _ _ _ (rankable_dicts _ _ Hr2) H2) as Hk2.
  split.
  - destruct (profile_record_rankable v1 (profile_record_perm _ _ Hp1 Hrec)) as [Hv1 Hv2].
    rewrite (one_kind_perm _ _ _ Hp1) in Hk2.
    destruct (sorted_reverse_total "Problems Solved" v1 Hv2 Hk2) as [w Hw].
    exists w. unfold rank_users.
    rewrite (sorted_reverse_sorted_id "Rating" v1 (rankable_dicts _ _ Hv1) Hs1), Hw.
    reflexivity.
  - destruct (profile_record_rankable v2 (profile_record_perm _ _ Hp2 Hrec)) as [Hv1 Hv2].
    rewrite (one_kind_perm _ _ _ Hp2) in Hk1.
    destruct (sorted_reverse_total "Rating" v2 Hv1 Hk1) as [w Hw].
    exists w. unfold rank_users.
    rewrite Hw, (sorted_reverse_sorted_id "Problems Solved" v2 (rankable_dicts _ _ Hv2) Hs2).
    reflexivity.
Qed.

Lemma rank_users_idempotent_witness :
  (∃ w, rank_users [user_record "bob" (PInt 5) (PInt 1);
                    user_record "ann" (PInt 3) (PInt 1);
                    user_record "cat" (PInt 3) (PInt 7)]
        = Return ([user_record "bob" (PInt 5) (PInt 1);
                   user_record "ann" (PInt 3) (PInt 1);
                   user_record "cat" (PInt 3) (PInt 7)], w)) ∧
  (∃ w, rank_users [user_record "cat" (PInt 3) (PInt 7);
                    user_record "ann" (PInt 3) (PInt 1);
                    user_record "bob" (PInt 5) (PInt 1)]
        = Return (w, [user_record "cat" (PInt 3) (PInt 7);
                      user_record "ann" (PInt 3) (PInt 1);
                      user_record "bob" (PInt 5) (PInt 1)])).
Proof.
  apply (rank_users_idempotent three_users).
  - repeat constructor.
  - reflexivity.
Defined.

(** ** [rank_users] on list objects *)

Lemma sorted_reverse_obj_spec (key : pyval → result pyval) (data : nat) (h : heap)
    (items : list pyval) :
  h !! data = Some items →
  match sorted_reverse key items with
  | Raise e => sorted_reverse_obj key data h = Some (Raise e, h)
  | Return view =>
      ∃ l, h !! l = None ∧
           sorted_reverse_obj key data h = Some (Return l, <[l := view]> h)
  end.
Proof.
  intros Hdata. unfold sorted_reverse_obj. rewrite Hdata. simpl.
  destruct (sorted_reverse key items) as [e|view]; [reflexivity|].
  exists (fresh (dom h)). split; [|reflexivity].
  apply not_elem_of_dom, is_fresh.
Qed.

(** C9: ranking leaves the batch list as it was.  Run on the list object
    at [data], [rank_users] changes no object that existed before the
    call, so the batch list holds the same records in the same order; when
    it returns, the two views are two newly allocated lists, distinct from
    the batch list and from each other, holding the views computed from
    the batch, and rewriting either of them changes neither the other nor
    the batch list. *)
Theorem rank_users_obj_frame (h : heap) (data : nat) (items : list pyval) :
  h !! data = Some items →
  ∃ out h',
    rank_users_obj data h = Some (out, h') ∧
    (∀ l, is_Some (h !! l) → h' !! l = h !! l) ∧
    h' !! data = Some items ∧
    match rank_users items with
    | Raise e => out = Raise e
    | Return (v1, v2) =>
        ∃ l1 l2,
          out = Return (l1, l2) ∧
          l1 ≠ l2 ∧ l1 ≠ data ∧ l2 ≠ data ∧
          h !! l1 = None ∧ h !! l2 = None ∧
          h' !! l1 = Some v1 ∧ h' !! l2 = Some v2 ∧
          (∀ changed, <[l1 := changed]> h' !! l2 = Some v2 ∧
                      <[l1 := changed]> h' !! data = Some items) ∧
          (∀ changed, <[l2 := changed]> h' !! l1 = Some v1 ∧
                      <[l2 := changed]> h' !! data = Some items)
    end.
Proof.
  intros Hdata. unfold rank_users_obj, rank_users.
  pose proof (sorted_reverse_obj_spec (λ x, py_get x "Rating" (PInt 0)) data h items Hdata)
    as Hfirst.
  destruct (sorted_reverse (λ x, py_get x "Rating" (PInt 0)) items) as [e|v1].
  { rewrite Hfirst. simpl. exists (Raise e), h. auto. }
  destruct Hfirst as (l1 & Hl1 & ->). simpl.
  assert (Hne1 : l1 ≠ data) by congruence.
  assert (Hdata1 : <[l1 := v1]> h !! data = Some items).
  { rewrite lookup_insert_ne; [exact Hdata | exact Hne1]. }
  pose proof (sorted_reverse_obj_spec (λ x, py_get x "Problems Solved" (PInt 0))
                data _ items Hdata1) as Hsecond.
  destruct (sorted_reverse (λ x, py_get x "Problems Solved" (PInt 0)) items) as [e|v2].
  { rewrite Hsecond. simpl. exists (Raise e), (<[l1 := v1]> h).
    repeat split; try assumption.
    intros l [x Hx]. rewrite lookup_insert_ne; [reflexivity | congruence]. }
  destruct Hsecond as (l2 & Hl2 & ->). simpl.
  assert (Hne12 : l1 ≠ l2).
  { intros <-. rewrite lookup_insert_eq in Hl2. discriminate Hl2. }
  assert (Hl2h : h !! l2 = None).
  { rewrite lookup_insert_ne in Hl2; [exact Hl2 | exact Hne12]. }
  assert (Hne2 : l2 ≠ data) by congruence.
  exists (Return (l1, l2)), (<[l2 := v2]> (<[l1 := v1]> h)).
  split; [reflexivity|]. split; [|split].
  - intros l [x Hx]. rewrite !lookup_insert_ne; [reflexivity | congruence | congruence].
  - rewrite lookup_insert_ne; [exact Hdata1 | exact Hne2].
  - exists l1, l2.
    repeat split; try assumption;
      repeat (rewrite lookup_insert_eq || (rewrite lookup_insert_ne by congruence));
      auto.
Qed.

Lemma rank_users_obj_frame_witness :
  ∃ out h',
    rank_users_obj 0%nat batch_heap = Some (out, h') ∧
    (∀ l, is_Some (batch_heap !! l) → h' !! l = batch_heap !! l) ∧
    h' !! 0%nat = Some three_users ∧
    match rank_users three_users with
    | Raise e => out = Raise e
    | Return (v1, v2) =>
        ∃ l1 l2,
          out = Return (l1, l2) ∧
          l1 ≠ l2 ∧ l1 ≠ 0%nat ∧ l2 ≠ 0%nat ∧
          batch_heap !! l1 = None ∧ batch_heap !! l2 = None ∧
          h' !! l1 = Some v1 ∧ h' !! l2 = Some v2 ∧
          (∀ changed, <[l1 := changed]> h' !! l2 = Some v2 ∧
                      <[l1 := changed]> h' !! 0%nat = Some three_users) ∧
          (∀ changed, <[l2 := changed]> h' !! l1 = Some v1 ∧
                      <[l2 := changed]> h' !! 0%nat = Some three_users)
    end.
Proof.
  apply (rank_users_obj_frame batch_heap 0%nat three_users).
  reflexivity.
Defined.

(** * Further properties of the program *)

(** ** Exceptions of the helpers *)

Lemma py_get_raises (v : pyval) (k : string) (default : pyval) (e : exn) :
  py_get v k default = Raise e → e = AttributeError.
Proof.
  destruct v as [| | | | |fields]; simpl; try (intros H; injection H as <-; reflexivity).
  destruct (dict_lookup k fields); discriminate.
Qed.

Lemma py_get_Return_dict (v : pyval) (k : string) (default x : pyval) :
  py_get v k default = Return x →
  ∃ fields, v = PDict fields ∧
            x = match dict_lookup k fields with Some y => y | None => default end.
Proof.
  destruct v as [| | | | |fields]; simpl; try discriminate.
  intros H. exists fields. split; [reflexivity|].
  destruct (dict_lookup k fields); injection H as <-; reflexivity.
Qed.

Lemma mapM_raises {A B} (f : A → result B) (l : list A) (e e0 : exn) :
  (∀ x e', f x = Raise e' → e' = e0) → mapM f l = Raise e → e = e0.
Proof.
  intros Hf. induction l as [|x l IH]; simpl; [discriminate|].
  destruct (f x) as [e'|y] eqn:Hx; simpl.
  - intros H. injection H as <-. eapply Hf, Hx.
  - destruct (mapM f l) as [e'|k]; simpl; [|discriminate].
    intros H. injection H as <-. apply IH. reflexivity.
Qed.

Lemma mapM_Return_Forall2 {A B} (f : A → result B) (l : list A) (k : list B) :
  mapM f l = Return k → Forall2 (λ x y, f x = Return y) l k.
Proof.
  revert k. induction l as [|x l IH]; intros k H; simpl in H.
  - injection H as <-. constructor.
  - bind_inv H. bind_inv H. injection H as <-. constructor; auto.
Qed.

Lemma py_iter_raises (v : pyval) (e : exn) : py_iter v = Raise e → e = TypeError.
Proof. destruct v; simpl; try discriminate; intros H; injection H as <-; reflexivity. Qed.

Lemma str_join_cons (sep : string) (v : pyval) (rest : list pyval) :
  str_join sep (v :: rest) =
    match v with
    | PStr s =>
        match rest with
        | [] => Return s
        | _ :: _ => joined ← str_join sep rest; Return (s +:+ sep +:+ joined)
        end
    | _ => Raise TypeError
    end.
Proof. destruct v; reflexivity. Qed.

Lemma str_join_raises (sep : string) (items : list pyval) (e : exn) :
  str_join sep items = Raise e → e = TypeError.
Proof.
  induction items as [|v rest IH]; [discriminate|].
  rewrite str_join_cons.
  destruct v; try (intros H; injection H as <-; reflexivity).
  destruct rest as [|v' rest']; [discriminate|].
  destruct (str_join sep (v' :: rest')) as [e'|joined]; simpl; [|discriminate].
  intros H. injection H as <-. apply IH. reflexivity.
Qed.

Lemma str_join_Return_inv (sep : string) (items : list pyval) (joined : string) :
  str_join sep items = Return joined →
  List.Forall (λ v, isinstance_str v = true) items.
Proof.
  revert joined. induction items as [|v rest IH]; intros joined H; [constructor|].
  rewrite str_join_cons in H.
  destruct v; try discriminate H.
  constructor; [reflexivity|].
  destruct rest as [|v' rest']; [constructor|].
  bind_inv H. eapply IH. eassumption.
Qed.

Lemma str_join_not_str (sep : string) (items : list pyval) :
  List.Exists (λ v, isinstance_str v = false) items →
  str_join sep items = Raise TypeError.
Proof.
  induction 1 as [v rest Hv|v rest Hrest IH]; rewrite str_join_cons.
  - destruct v; try reflexivity. discriminate Hv.
  - destruct v; try reflexivity.
    destruct rest as [|v' rest']; [inversion Hrest|].
    rewrite IH. reflexivity.
Qed.

(** ** The merge step *)

Lemma merge_fields_dicts (name : string) (fp fs : list (string * pyval)) (b : pyval) :
  merge_fields name (PDict fp) b (PDict fs) =
    has_badges ←
      (if truthy b
       then found ← py_get b "badges" PNone; Return (isinstance_list found)
       else Return false);
    if (has_badges : bool) then
      listed ← py_get b "badges" (PList []);
      entries ← py_iter listed;
      badge_names ← mapM (λ badge, py_get badge "displayName" (PStr "N/A")) entries;
      joined ← str_join ", " badge_names;
      Return (PDict [("Username", PStr name);
                     ("Rating", field_or_NA "reputation" fp);
                     ("Problems Solved", field_or_NA "solvedProblem" fs);
                     ("Badges", PStr joined);
                     ("Ranking", field_or_NA "ranking" fp)])
    else
      Return (PDict [("Username", PStr name);
                     ("Rating", field_or_NA "reputation" fp);
                     ("Problems Solved", field_or_NA "solvedProblem" fs);
                     ("Badges", PStr "N/A");
                     ("Ranking", field_or_NA "ranking" fp)]).
Proof. unfold merge_fields. rewrite !py_get_dict. reflexivity. Qed.

Lemma merge_fields_no_list (name : string) (fp fs : list (string * pyval)) (b : pyval) :
  truthy b = false ∨ (isinstance_dict b = true ∧ badge_list b = None) →
  merge_fields name (PDict fp) b (PDict fs) =
    Return (PDict [("Username", PStr name);
                   ("Rating", field_or_NA "reputation" fp);
                   ("Problems Solved", field_or_NA "solvedProblem" fs);
                   ("Badges", PStr "N/A");
                   ("Ranking", field_or_NA "ranking" fp)]).
Proof.
  intros Hb. rewrite merge_fields_dicts.
  destruct (truthy b) eqn:Ht; [|reflexivity].
  destruct Hb as [Hb|[Hd Hl]]; [discriminate Hb|].
  destruct b as [| | | | |fb]; try discriminate Hd.
  rewrite !py_get_dict. simpl in Hl.
  destruct (dict_lookup "badges" fb) as [[]|]; try reflexivity. discriminate Hl.
Qed.

Lemma merge_fields_list (name : string) (fp fb fs : list (string * pyval))
    (entries : list pyval) :
  dict_lookup "badges" fb = Some (PList entries) →
  merge_fields name (PDict fp) (PDict fb) (PDict fs) =
    badge_names ← mapM (λ badge, py_get badge "displayName" (PStr "N/A")) entries;
    joined ← str_join ", " badge_names;
    Return (PDict [("Username", PStr name);
                   ("Rating", field_or_NA "reputation" fp);
                   ("Problems Solved", field_or_NA "solvedProblem" fs);
                   ("Badges", PStr joined);
                   ("Ranking", field_or_NA "ranking" fp)]).
Proof.
  intros Hl. rewrite merge_fields_dicts.
  assert (Ht : truthy (PDict fb) = true) by (destruct fb; [discriminate Hl | reflexivity]).
  rewrite Ht, !py_get_dict, Hl. reflexivity.
Qed.

Lemma merge_fields_raises (name : string) (p b s : pyval) (e : exn) :
  merge_fields name p b s = Raise e → e = AttributeError ∨ e = TypeError.
Proof.
  unfold merge_fields.
  destruct (py_get p "reputation" _) as [e1|rating] eqn:H1; simpl.
  { intros H. injection H as <-. left. eapply py_get_raises, H1. }
  destruct (py_get s "solvedProblem" _) as [e2|solved] eqn:H2; simpl.
  { intros H. injection H as <-. left. eapply py_get_raises, H2. }
  destruct (py_get p "ranking" _) as [e3|ranking] eqn:H3; simpl.
  { intros H. injection H as <-. left. eapply py_get_raises, H3. }
  destruct (truthy b); simpl; [|discriminate].
  destruct (py_get b "badges" PNone) as [e4|found] eqn:H4; simpl.
  { intros H. injection H as <-. left. eapply py_get_raises, H4. }
  destruct (isinstance_list found); [|discriminate].
  destruct (py_get b "badges" (PList [])) as [e5|listed] eqn:H5; simpl.
  { intros H. injection H as <-. left. eapply py_get_raises, H5. }
  destruct (py_iter listed) as [e6|entries] eqn:H6; simpl.
  { intros H. injection H as <-. right. eapply py_iter_raises, H6. }
  destruct (mapM _ entries) as [e7|names] eqn:H7; simpl.
  { intros H. injection H as <-. left.
    eapply mapM_raises; [|exact H7]. intros x e'. apply py_get_raises. }
  destruct (str_join ", " names) as [e8|joined] eqn:H8; simpl; [|discriminate].
  intros H. injection H as <-. right. eapply str_join_raises, H8.
Qed.

Lemma entry_ok_get (entry : pyval) :
  entry_ok entry = true ↔
  ∃ display, py_get entry "displayName" (PStr "N/A") = Return (PStr display).
Proof.
  split.
  - destruct entry as [| | | | |fields]; try discriminate. simpl.
    destruct (dict_lookup "displayName" fields) as [[]|]; try discriminate; eauto.
  - intros [display H]. apply py_get_Return_dict in H as (fields & -> & H). simpl.
    destruct (dict_lookup "displayName" fields) as [[]|]; try discriminate H; reflexivity.
Qed.

(** The merge step returns exactly on the payloads [payloads_ok] accepts. *)
Lemma merge_fields_Return_iff (name : string) (p b s : pyval) :
  (∃ user_data, merge_fields name p b s = Return user_data) ↔
  isinstance_dict p = true ∧ isinstance_dict s = true ∧ badges_ok (Return b) = true.
Proof.
  split.
  - intros [user_data H].
    assert (Hp : isinstance_dict p = true).
    { unfold merge_fields in H. bind_inv H.
      match goal with Hx : py_get p _ _ = _ |- _ =>
        apply py_get_Return_dict in Hx as (fp & -> & _) end. reflexivity. }
    assert (Hs : isinstance_dict s = true).
    { unfold merge_fields in H. do 2 bind_inv H.
      match goal with Hx : py_get s _ _ = _ |- _ =>
        apply py_get_Return_dict in Hx as (fs & -> & _) end. reflexivity. }
    split; [exact Hp|]. split; [exact Hs|].
    destruct p as [| | | | |fp]; try discriminate Hp.
    destruct s as [| | | | |fs]; try discriminate Hs.
    destruct (truthy b) eqn:Ht.
    2:{ destruct b as [| | | | |fb];
          try (unfold badges_ok; rewrite Ht; reflexivity).
        destruct fb; [reflexivity | discriminate Ht]. }
    destruct b as [| | | | |fb];
      try (rewrite merge_fields_dicts, Ht in H; discriminate H).
    simpl. destruct (dict_lookup "badges" fb) as [found|] eqn:Hl; [|reflexivity].
    destruct found as [| | | |entries|]; try reflexivity.
    rewrite (merge_fields_list _ _ _ _ _ Hl) in H.
    apply bind_Return_inv in H as (names & Hnames & H).
    apply bind_Return_inv in H as (joined & Hstr & _).
    apply mapM_Return_Forall2 in Hnames. apply str_join_Return_inv in Hstr.
    apply forallb_forall. intros entry Hin. apply list_elem_of_In in Hin.
    apply list_elem_of_lookup in Hin as [i Hi].
    destruct (Forall2_lookup_l _ _ _ _ _ Hnames Hi) as (y & Hy & Hget).
    apply entry_ok_get.
    rewrite List.Forall_forall in Hstr.
    assert (Hystr : isinstance_str y = true).
    { apply Hstr. apply list_elem_of_In. eapply list_elem_of_lookup_2, Hy. }
    destruct y; try discriminate Hystr. eauto.
  - intros (Hp & Hs & Hb).
    destruct p as [| | | | |fp]; try discriminate Hp.
    destruct s as [| | | | |fs]; try discriminate Hs.
    destruct (badge_list b) as [entries|] eqn:Hl.
    + destruct b as [| | | | |fb]; try discriminate Hl. simpl in Hl, Hb.
      destruct (dict_lookup "badges" fb) as [[| | | |entries'|]|] eqn:Hlook;
        try discriminate Hl.
      injection Hl as ->. rewrite (merge_fields_list _ _ _ _ _ Hlook).
      destruct (display_names_ok entries Hb) as [names ->].
      cbn [mbind result_bind]. rewrite str_join_concat. simpl. eauto.
    + rewrite merge_fields_no_list; [eauto|].
      destruct b as [| | | | |fb]; simpl in Hb;
        try (left; apply negb_true_iff, Hb); try (left; reflexivity).
      right. split; [reflexivity | exact Hl].
Qed.

(** ** [fetch_user_data]: outcomes *)

Section FetchOutcomes.

Variable requests_get : string → http_outcome.

Local Abbreviation profile_of name := (get_profile requests_get {| username := name |}).
Local Abbreviation badges_of name := (get_badges requests_get {| username := name |}).
Local Abbreviation solved_of name := (get_solved requests_get {| username := name |}).
Local Abbreviation wrapped name cause :=
  (APIError ("Failed to fetch data for " +:+ name +:+ ": " +:+ cause)).

Lemma fetch_user_data_merge (name : string) :
  name ≠ "" →
  fetch_user_data requests_get name =
    try_except_APIError
      (profile ← profile_of name;
       badges ← badges_of name;
       solved_problems ← solved_of name;
       merge_fields name profile badges solved_problems)
      (λ e, Raise (wrapped name e)).
Proof. intros Hne. rewrite (fetch_user_data_valid _ name Hne). reflexivity. Qed.

Lemma _request_failure (endpoint : string) (e : exn) :
  _request requests_get endpoint = Raise e →
  ∃ cause, e = APIError cause ∧ lookup_failure cause.
Proof.
  unfold _request, lookup_failure.
  destruct (requests_get _) as [http_err|req_err|[json|]]; intros H;
    try discriminate H; injection H as <-; eauto 6.
Qed.

Lemma fetch_user_data_lookups (name : string) (p b s : pyval) :
  name ≠ "" →
  lookups_return requests_get name p b s →
  fetch_user_data requests_get name =
    try_except_APIError (merge_fields name p b s) (λ e, Raise (wrapped name e)).
Proof.
  intros Hne (Hp & Hb & Hs). rewrite (fetch_user_data_merge name Hne), Hp, Hb, Hs.
  reflexivity.
Qed.

Lemma try_except_merge_fields (name : string) (p b s : pyval) handler :
  try_except_APIError (merge_fields name p b s) handler = merge_fields name p b s.
Proof.
  destruct (merge_fields name p b s) as [e|r] eqn:H; [|reflexivity].
  apply merge_fields_raises in H as [-> | ->]; reflexivity.
Qed.

(** X1: every way [fetch_user_data] can fail.  An empty username gives
    the [ValidationError] whatever the API answers; a non-empty one gives
    either the [APIError] that wraps the message of the first failed
    lookup, that message being one of the three [_request] produces, or,
    when all three lookups returned a payload the merge step cannot read,
    an [AttributeError] or a [TypeError]. *)
Theorem fetch_user_data_failure_cases (name : string) (e : exn) :
  fetch_user_data requests_get name = Raise e →
  (name = "" ∧ e = ValidationError "Username must be a non-empty string") ∨
  (name ≠ "" ∧
   ∃ cause, first_failure requests_get name cause ∧ lookup_failure cause ∧
            e = wrapped name cause) ∨
  (name ≠ "" ∧ (e = AttributeError ∨ e = TypeError) ∧
   ∃ p b s, lookups_return requests_get name p b s ∧
            isinstance_dict p && isinstance_dict s && badges_ok (Return b) = false).
Proof.
  destruct (String.eqb name "") eqn:Hempty.
  { apply String.eqb_eq in Hempty. subst name. rewrite fetch_user_data_empty.
    intros H. injection H as <-. left. auto. }
  apply String.eqb_neq in Hempty. rewrite (fetch_user_data_merge name Hempty).
  intros H. right.
  destruct (profile_of name) as [e1|p] eqn:Hp.
  { destruct (_request_failure _ _ Hp) as (cause & -> & Hc). simpl in H.
    injection H as <-. left. split; [exact Hempty|]. exists cause.
    split; [left; exact Hp | auto]. }
  destruct (badges_of name) as [e1|b] eqn:Hb.
  { destruct (_request_failure _ _ Hb) as (cause & -> & Hc). simpl in H.
    injection H as <-. left. split; [exact Hempty|]. exists cause.
    split; [right; left; eauto | auto]. }
  destruct (solved_of name) as [e1|s] eqn:Hs.
  { destruct (_request_failure _ _ Hs) as (cause & -> & Hc). simpl in H.
    injection H as <-. left. split; [exact Hempty|]. exists cause.
    split; [right; right; eauto | auto]. }
  cbn [mbind result_bind] in H. rewrite try_except_merge_fields in H.
  right. split; [exact Hempty|]. split; [eapply merge_fields_raises, H|].
  exists p, b, s. split; [repeat split; assumption|].
  apply not_true_is_false. intros Hok.
  apply andb_prop in Hok as [Hok Hbok]. apply andb_prop in Hok as [Hpok Hsok].
  destruct (proj2 (merge_fields_Return_iff name p b s)) as [r Hr]; [auto|].
  rewrite Hr in H. discriminate H.
Qed.

Lemma fetch_user_data_returns (name : string) (p b s : pyval) :
  name ≠ "" →
  lookups_return requests_get name p b s →
  isinstance_dict p = true → isinstance_dict s = true →
  badges_ok (Return b) = true →
  ∃ user_data, fetch_user_data requests_get name = Return user_data.
Proof.
  intros Hne Hl Hp Hs Hb.
  rewrite (fetch_user_data_lookups name p b s Hne Hl), try_except_merge_fields.
  apply merge_fields_Return_iff. auto.
Qed.

(** X2: when [fetch_user_data] returns a record.  It does exactly when
    the username is not empty, the three lookups return, the profile and
    solved-count payloads are objects, and the badges payload is falsy or
    an object whose "badges" list, if it has one, holds objects with a
    text display name or none. *)
Theorem fetch_user_data_returns_iff (name : string) :
  (∃ user_data, fetch_user_data requests_get name = Return user_data) ↔
  name ≠ "" ∧
  ∃ p b s, lookups_return requests_get name p b s ∧
           isinstance_dict p = true ∧ isinstance_dict s = true ∧
           badges_ok (Return b) = true.
Proof.
  split.
  - intros [user_data H].
    assert (Hne : name ≠ "").
    { intros ->. rewrite fetch_user_data_empty in H. discriminate H. }
    split; [exact Hne|]. rewrite (fetch_user_data_merge name Hne) in H.
    destruct (profile_of name) as [e1|p] eqn:Hp.
    { destruct (_request_failure _ _ Hp) as (cause & -> & _). discriminate H. }
    destruct (badges_of name) as [e1|b] eqn:Hb.
    { destruct (_request_failure _ _ Hb) as (cause & -> & _). discriminate H. }
    destruct (solved_of name) as [e1|s] eqn:Hs.
    { destruct (_request_failure _ _ Hs) as (cause & -> & _). discriminate H. }
    cbn [mbind result_bind] in H. rewrite try_except_merge_fields in H.
    exists p, b, s. split; [repeat split; assumption|].
    apply (merge_fields_Return_iff name). eauto.
  - intros (Hne & p & b & s & Hl & Hp & Hs & Hb).
    eapply fetch_user_data_returns; eassumption.
Qed.

(** X5: a payload that is not an object.  When the three lookups return
    and the profile payload or the solved-count payload is not an object,
    or the badges payload is truthy without being an object,
    [fetch_user_data] raises [AttributeError]. *)
Theorem fetch_user_data_not_object (name : string) (p b s : pyval) :
  name ≠ "" →
  lookups_return requests_get name p b s →
  isinstance_dict p = false ∨ isinstance_dict s = false ∨
    (truthy b = true ∧ isinstance_dict b = false) →
  fetch_user_data requests_get name = Raise AttributeError.
Proof.
  intros Hne Hl Hcase.
  rewrite (fetch_user_data_lookups name p b s Hne Hl), try_except_merge_fields.
  destruct p as [| | | | |fp]; try reflexivity.
  destruct s as [| | | | |fs];
    try (unfold merge_fields; rewrite !py_get_dict; reflexivity).
  destruct Hcase as [H|[H|[Ht Hd]]]; try discriminate H.
  rewrite merge_fields_dicts, Ht.
  destruct b; try discriminate Hd; reflexivity.
Qed.

(** X6: a display name that is not a text.  When the payloads are
    objects and some entry of the badge list carries a display name that
    is not a string, the join fails and [fetch_user_data] raises
    [TypeError]. *)
Theorem fetch_user_data_bad_display_name (name : string)
    (fp fb fs : list (string * pyval)) (entries : list (list (string * pyval))) :
  name ≠ "" →
  lookups_return requests_get name (PDict fp) (PDict fb) (PDict fs) →
  dict_lookup "badges" fb = Some (PList (map PDict entries)) →
  List.Exists (λ entry, ∃ v, dict_lookup "displayName" entry = Some v ∧
                             isinstance_str v = false) entries →
  fetch_user_data requests_get name = Raise TypeError.
Proof.
  intros Hne Hl Hb Hbad.
  rewrite (fetch_user_data_lookups _ _ _ _ Hne Hl), try_except_merge_fields.
  rewrite (merge_fields_list _ _ _ _ _ Hb).
  rewrite (mapM_Return _ (λ v, match v with
                               | PDict entry =>
                                   match dict_lookup "displayName" entry with
                                   | Some x => x
                                   | None => PStr "N/A"
                                   end
                               | _ => PNone
                               end)).
  2:{ apply Forall_map. apply Forall_forall. intros entry _. apply py_get_dict. }
  cbn [mbind result_bind]. rewrite str_join_not_str; [reflexivity|].
  rewrite map_map. apply List.Exists_exists.
  apply List.Exists_exists in Hbad as (entry & Hin & v & Hv & Hstr).
  exists v. split; [|exact Hstr].
  apply in_map_iff. exists entry. rewrite Hv. auto.
Qed.

(** X7: a badges payload without a badge list is absorbed.  When the
    profile and solved-count payloads are objects and the badges payload
    is falsy, or an object whose "badges" field is missing or not a list,
    the record is returned with Badges left at "N/A". *)
Theorem fetch_user_data_without_badges (name : string)
    (fp fs : list (string * pyval)) (b : pyval) :
  name ≠ "" →
  lookups_return requests_get name (PDict fp) b (PDict fs) →
  truthy b = false ∨ (isinstance_dict b = true ∧ badge_list b = None) →
  fetch_user_data requests_get name =
    Return (PDict [("Username", PStr name);
                   ("Rating", field_or_NA "reputation" fp);
                   ("Problems Solved", field_or_NA "solvedProblem" fs);
                   ("Badges", PStr "N/A");
                   ("Ranking", field_or_NA "ranking" fp)]).
Proof.
  intros Hne Hl Hb.
  rewrite (fetch_user_data_lookups _ _ _ _ Hne Hl), try_except_merge_fields.
  apply merge_fields_no_list, Hb.
Qed.

End FetchOutcomes.

(** X3: a record depends on the user's own three lookups only.  Two
    APIs that answer the profile, badges and solved-count addresses of a
    user alike give the same outcome for that user, whatever they answer
    elsewhere. *)
Theorem fetch_user_data_local (api1 api2 : string → http_outcome) (name : string) :
  api1 (profile_url name) = api2 (profile_url name) →
  api1 (badges_url name) = api2 (badges_url name) →
  api1 (solved_url name) = api2 (solved_url name) →
  fetch_user_data api1 name = fetch_user_data api2 name.
Proof.
  unfold profile_url, badges_url, solved_url. intros Hp Hb Hs.
  unfold fetch_user_data, LeetcodeWrapper_init.
  destruct (validate_username (PStr name)); [reflexivity|].
  cbn [mbind result_bind]. unfold get_profile, get_badges, get_solved, _request.
  cbn [username]. rewrite Hp, Hb, Hs. reflexivity.
Qed.

(** X4: the first failed lookup decides.  When the profile lookup fails,
    the outcome is the same whatever the API would answer for the badges
    and the solved count; when the profile lookup returns and the badges
    lookup fails, it is the same whatever the API would answer for the
    solved count. *)
Theorem fetch_user_data_stops_at_failure (api1 api2 : string → http_outcome)
    (name : string) :
  api1 (profile_url name) = api2 (profile_url name) →
  (∃ e, get_profile api1 {| username := name |} = Raise e) ∨
    (api1 (badges_url name) = api2 (badges_url name) ∧
     ∃ e, get_badges api1 {| username := name |} = Raise e) →
  fetch_user_data api1 name = fetch_user_data api2 name.
Proof.
  unfold profile_url, badges_url. intros Hp Hcase.
  unfold fetch_user_data, LeetcodeWrapper_init.
  destruct (validate_username (PStr name)); [reflexivity|].
  cbn [mbind result_bind].
  assert (Hp2 : get_profile api1 {| username := name |}
                = get_profile api2 {| username := name |}).
  { unfold get_profile, _request. cbn [username]. rewrite Hp. reflexivity. }
  destruct Hcase as [[e He]|[Hb [e He]]].
  - rewrite <- Hp2, He. reflexivity.
  - assert (He2 : get_badges api2 {| username := name |} = Raise e).
    { revert He. unfold get_badges, _request. cbn [username]. rewrite Hb. auto. }
    rewrite Hp2, He, He2.
    destruct (get_profile api2 {| username := name |}); reflexivity.
Qed.

Lemma fetch_user_data_failure_cases_witness :
  ("olga"%string = ""%string ∧
   TypeError = ValidationError "Username must be a non-empty string") ∨
  ("olga"%string ≠ ""%string ∧
   ∃ cause, first_failure olga_api "olga" cause ∧ lookup_failure cause ∧
            TypeError = APIError ("Failed to fetch data for " +:+ "olga" +:+ ": " +:+ cause)) ∨
  ("olga"%string ≠ ""%string ∧ (TypeError = AttributeError ∨ TypeError = TypeError) ∧
   ∃ p b s, lookups_return olga_api "olga" p b s ∧
            isinstance_dict p && isinstance_dict s && badges_ok (Return b) = false).
Proof.
  apply (fetch_user_data_failure_cases olga_api "olga" TypeError). reflexivity.
Defined.

Lemma fetch_user_data_not_object_witness :
  fetch_user_data eve_api "eve" = Raise AttributeError.
Proof.
  apply (fetch_user_data_not_object eve_api "eve" (PList [])
           (PDict [("badges", PList [])]) (PDict [("solvedProblem", PInt 7)])).
  - discriminate.
  - repeat split.
  - left. reflexivity.
Defined.

Lemma fetch_user_data_bad_display_name_witness :
  fetch_user_data olga_api "olga" = Raise TypeError.
Proof.
  apply (fetch_user_data_bad_display_name olga_api "olga"
           [("reputation", PInt 1)]
           [("badges", PList [PDict [("displayName", PStr "Knight")];
                              PDict [("displayName", PNone)]])]
           [("solvedProblem", PInt 2)]
           [[("displayName", PStr "Knight")]; [("displayName", PNone)]]).
  - discriminate.
  - repeat split.
  - reflexivity.
  - right. left. exists PNone. split; reflexivity.
Defined.

Lemma fetch_user_data_without_badges_witness :
  fetch_user_data nina_api "nina" =
    Return (PDict [("Username", PStr "nina");
                   ("Rating", field_or_NA "reputation" [("ranking", PInt 5)]);
                   ("Problems Solved", field_or_NA "solvedProblem" [("solvedProblem", PInt 3)]);
                   ("Badges", PStr "N/A");
                   ("Ranking", field_or_NA "ranking" [("ranking", PInt 5)])]).
Proof.
  apply (fetch_user_data_without_badges nina_api "nina"
           [("ranking", PInt 5)] [("solvedProblem", PInt 3)] (PDict [])).
  - discriminate.
  - repeat split.
  - left. reflexivity.
Defined.

Lemma fetch_user_data_local_witness :
  fetch_user_data carol_api "carol" = fetch_user_data carol_dave_api "carol".
Proof.
  apply (fetch_user_data_local carol_api carol_dave_api "carol"); reflexivity.
Defined.

Lemma fetch_user_data_stops_at_failure_witness :
  fetch_user_data carol_api "erin" = fetch_user_data erin_badges_api "erin".
Proof.
  apply (fetch_user_data_stops_at_failure carol_api erin_badges_api "erin").
  - reflexivity.
  - left. eexists. reflexivity.
Defined.

(** ** The batch loop: composition and early exit *)

Lemma collect_app (f1 f2 : list (string * result pyval)) (st : batch) :
  collect (f1 ++ f2) st =
    match collect f1 st with
    | (st1, None) => collect f2 st1
    | (st1, Some e) => (st1, Some e)
    end.
Proof.
  revert st. induction f1 as [|[name outcome] f1 IH]; intros st; [reflexivity|].
  simpl. destruct outcome as [[e|e| |]|user_data]; try apply IH; reflexivity.
Qed.

Lemma collect_from (futures : list (string * result pyval)) (st : batch) :
  collect futures st =
    (batch_app st (fst (collect futures {| results := []; printed := [] |})),
     snd (collect futures {| results := []; printed := [] |})).
Proof.
  revert st. induction futures as [|[name outcome] futures IH]; intros st.
  - simpl. unfold batch_app. simpl. rewrite !app_nil_r. destruct st; reflexivity.
  - simpl. destruct outcome as [[e|e| |]|user_data];
      try (rewrite IH; symmetry; rewrite IH; symmetry; unfold batch_app; simpl;
           rewrite <- ?app_assoc; reflexivity).
    + unfold batch_app. simpl. rewrite !app_nil_r. destruct st; reflexivity.
    + unfold batch_app. simpl. rewrite !app_nil_r. destruct st; reflexivity.
Qed.

(** X8: a batch is the concatenation of its parts.  Running the loop on
    two lists of usernames one after the other gives the records and the
    printed lines of the first list followed by those of the second,
    unless the first run was left by an exception, which then ends the
    whole run with what the first run had. *)
Theorem main_fetch_app (requests_get : string → http_outcome)
    (us1 us2 : list string) :
  main_fetch requests_get (us1 ++ us2) =
    match main_fetch requests_get us1 with
    | (st1, None) =>
        (batch_app st1 (fst (main_fetch requests_get us2)),
         snd (main_fetch requests_get us2))
    | (st1, Some e) => (st1, Some e)
    end.
Proof.
  unfold main_fetch, submit_all. rewrite map_app, collect_app.
  destruct (collect (map _ us1) _) as [st1 [e|]]; [reflexivity|].
  apply collect_from.
Qed.

(** The loop handles a prefix of the tasks: all of them, or those before
    the first task that ended in an exception it has no branch for. *)
Lemma collect_prefix (futures : list (string * result pyval)) (st : batch)
    (o : option exn) :
  collect futures {| results := []; printed := [] |} = (st, o) →
  ∃ before after,
    futures = before ++ after ∧
    Forall (λ future, reported (snd future)) before ∧
    results st = omap record_of before ∧
    printed st = omap report_of before ∧
    match o with
    | None => after = []
    | Some e => ∃ name rest, after = (name, Raise e) :: rest ∧ unexpected e
    end.
Proof.
  revert st o. induction futures as [|[name outcome] futures IH]; intros st o H.
  - injection H as <- <-. exists [], []. repeat split; constructor.
  - change ((name, outcome) :: futures) with ([(name, outcome)] ++ futures) in H.
    rewrite collect_app in H.
    assert (Hstep : reported outcome →
              collect [(name, outcome)] {| results := []; printed := [] |} =
                ({| results := omap record_of [(name, outcome)];
                    printed := omap report_of [(name, outcome)] |}, None)).
    { intros Hr. apply (collect_reported [(name, outcome)]). repeat constructor. exact Hr. }
    destruct outcome as [[e|e| |]|user_data].
    1,2,5: rewrite (Hstep I), collect_from in H;
      destruct (collect futures _) as [st' o'] eqn:Hrest;
      destruct (IH st' o' eq_refl) as (before & after & -> & Hrep & Hres & Hpr & Ho);
      injection H as <- <-;
      eexists (_ :: before), after; (split; [reflexivity|]);
      (split; [constructor; [exact I | exact Hrep]|]);
      simpl; rewrite Hres, Hpr; repeat split; exact Ho.
    + injection H as <- <-. exists [], ((name, Raise AttributeError) :: futures).
      repeat split; try constructor. exists name, futures. split; [reflexivity | exact I].
    + injection H as <- <-. exists [], ((name, Raise TypeError) :: futures).
      repeat split; try constructor. exists name, futures. split; [reflexivity | exact I].
Qed.

(** X9: how the loop is left early.  When the loop ends with an
    exception, that exception is neither an [APIError] nor a
    [ValidationError] and was raised by the task of some username; the
    tasks before it all ended in a record or a reported failure and are
    exactly the ones accounted for, and no later username has a record or
    a printed line. *)
Theorem main_fetch_early_exit (requests_get : string → http_outcome)
    (usernames : list string) (st : batch) (e : exn) :
  main_fetch requests_get usernames = (st, Some e) →
  ∃ before name after,
    usernames = before ++ name :: after ∧
    fetch_user_data requests_get name = Raise e ∧
    unexpected e ∧
    Forall (λ u, reported (fetch_user_data requests_get u)) before ∧
    results st = omap record_of (submit_all requests_get before) ∧
    printed st = omap report_of (submit_all requests_get before).
Proof.
  unfold main_fetch. intros H.
  apply collect_prefix in H as (fb & fa & Hsplit & Hrep & Hres & Hpr & name & rest & -> & He).
  unfold submit_all in Hsplit.
  apply fmap_app_inv in Hsplit as (before & after' & Hfb & Hafter & Hus).
  subst fb usernames.
  destruct after' as [|name' after]; [discriminate Hafter|].
  injection Hafter as Hname Hfetch Hrest. subst name.
  exists before, name', after. split; [reflexivity|]. split; [symmetry; exact Hfetch|].
  split; [exact He|]. split; [|split; assumption].
  clear -Hrep. induction before as [|u before IH]; [constructor|].
  inversion Hrep; subst. constructor; [assumption | apply IH; assumption].
Qed.

Lemma main_fetch_early_exit_witness :
  ∃ before name after,
    ["frank"; "eve"; "gina"]%string = before ++ name :: after ∧
    fetch_user_data eve_api name = Raise AttributeError ∧
    unexpected AttributeError ∧
    Forall (λ u, reported (fetch_user_data eve_api u)) before ∧
    results {| results := [];
               printed := ["Error fetching data for frank: Failed to fetch data for frank: Request error occurred: connection refused"] |}
      = omap record_of (submit_all eve_api before) ∧
    printed {| results := [];
               printed := ["Error fetching data for frank: Failed to fetch data for frank: Request error occurred: connection refused"] |}
      = omap report_of (submit_all eve_api before).
Proof.
  apply (main_fetch_early_exit eve_api ["frank"; "eve"; "gina"]%string).
  reflexivity.
Defined.

(** ** [rank_users]: any list *)

Lemma map_snd_zip {A B} (keys : list A) (data : list B) :
  length keys = length data → map snd (zip keys data) = data.
Proof.
  revert data. induction keys as [|k keys IH]; intros [|x data] H;
    try discriminate H; [reflexivity|].
  simpl. rewrite IH; [reflexivity|]. simpl in H. lia.
Qed.

Lemma mapM_length {A B} (f : A → result B) (l : list A) (k : list B) :
  mapM f l = Return k → length k = length l.
Proof.
  intros H. apply mapM_Return_Forall2 in H. symmetry. eapply Forall2_length, H.
Qed.

Lemma sorted_reverse_perm (key : pyval → result pyval) (data view : list pyval) :
  sorted_reverse key data = Return view → Permutation data view.
Proof.
  unfold sorted_reverse. intros H.
  apply bind_Return_inv in H as (keys & Hkeys & H).
  apply bind_Return_inv in H as (sorted & Hsorted & H). injection H as <-.
  rewrite <- (map_snd_zip keys data (mapM_length _ _ _ Hkeys)) at 1.
  apply Permutation_map, sort_desc_perm, Hsorted.
Qed.

(** X10: ranking returns the records it was given.  Whenever
    [rank_users] returns, each of the two views is a rearrangement of the
    input list: no record is lost, repeated or made up, and both views
    have the length of the input.  This holds for any list. *)
Theorem rank_users_permutation (data v1 v2 : list pyval) :
  rank_users data = Return (v1, v2) →
  Permutation data v1 ∧ Permutation data v2 ∧
  length v1 = length data ∧ length v2 = length data.
Proof.
  intros H. apply rank_users_Return_inv in H as [H1 H2].
  apply sorted_reverse_perm in H1, H2.
  repeat split; try assumption; symmetry; apply Permutation_length; assumption.
Qed.

Lemma rank_users_permutation_witness :
  Permutation three_users
    [user_record "bob" (PInt 5) (PInt 1);
     user_record "ann" (PInt 3) (PInt 1);
     user_record "cat" (PInt 3) (PInt 7)] ∧
  Permutation three_users
    [user_record "cat" (PInt 3) (PInt 7);
     user_record "ann" (PInt 3) (PInt 1);
     user_record "bob" (PInt 5) (PInt 1)] ∧
  length [user_record "bob" (PInt 5) (PInt 1);
          user_record "ann" (PInt 3) (PInt 1);
          user_record "cat" (PInt 3) (PInt 7)] = length three_users ∧
  length [user_record "cat" (PInt 3) (PInt 7);
          user_record "ann" (PInt 3) (PInt 1);
          user_record "bob" (PInt 5) (PInt 1)] = length three_users.
Proof.
  apply (rank_users_permutation three_users). reflexivity.
Defined.

Lemma mapM_Exists_raises {A B} (f : A → result B) (l : list A) (e0 : exn) :
  (∀ x e, f x = Raise e → e = e0) →
  List.Exists (λ x, ∃ e, f x = Raise e) l →
  mapM f l = Raise e0.
Proof.
  intros Hf. induction 1 as [x l [e He]|x l Hl IH]; simpl.
  - rewrite He. simpl. f_equal. eapply Hf, He.
  - destruct (f x) as [e|y] eqn:Hx; simpl.
    + f_equal. eapply Hf, Hx.
    + rewrite IH. reflexivity.
Qed.

Lemma sorted_reverse_not_dict (field : string) (data : list pyval) :
  List.Exists (λ r, isinstance_dict r = false) data →
  sorted_reverse (λ x, py_get x field (PInt 0)) data = Raise AttributeError.
Proof.
  intros H. unfold sorted_reverse.
  rewrite (mapM_Exists_raises _ data AttributeError); [reflexivity| |].
  - intros x e. apply py_get_raises.
  - eapply List.Exists_impl; [|exact H].
    intros [| | | | |fields]; try (intros _; eexists; reflexivity). discriminate.
Qed.

Lemma dicts_or_not (data : list pyval) :
  Forall (λ r, isinstance_dict r = true) data ∨
  List.Exists (λ r, isinstance_dict r = false) data.
Proof.
  induction data as [|r data [IH|IH]].
  - left. constructor.
  - destruct (isinstance_dict r) eqn:Hr.
    + left. constructor; assumption.
    + right. left. exact Hr.
  - right. right. exact IH.
Qed.

(** X11: the exceptions of [rank_users].  It raises [AttributeError]
    exactly when some item of the list is not an object, whatever the
    other items are; any other failure is a [TypeError] from comparing
    two keys. *)
Theorem rank_users_exceptions (data : list pyval) :
  (rank_users data = Raise AttributeError ↔
     List.Exists (λ r, isinstance_dict r = false) data) ∧
  (∀ e, rank_users data = Raise e → e = AttributeError ∨ e = TypeError).
Proof.
  destruct (dicts_or_not data) as [Hd|Hn].
  - assert (Hte : ∀ e, rank_users data = Raise e → e = TypeError).
    { unfold rank_users. intros e.
      destruct (sorted_reverse (λ x, py_get x "Rating" (PInt 0)) data) as [e1|v1] eqn:H1;
        cbn [mbind result_bind].
      { intros H. injection H as <-. eapply sorted_reverse_raises; eassumption. }
      destruct (sorted_reverse (λ x, py_get x "Problems Solved" (PInt 0)) data)
        as [e2|v2] eqn:H2; cbn [mbind result_bind]; [|discriminate].
      intros H. injection H as <-. eapply sorted_reverse_raises; eassumption. }
    split; [split|].
    + intros H. apply Hte in H. discriminate H.
    + intros Hn. exfalso. apply List.Exists_exists in Hn as (r & Hin & Hr).
      rewrite Forall_forall in Hd. apply list_elem_of_In in Hin.
      rewrite (Hd r Hin) in Hr. discriminate Hr.
    + intros e H. right. apply Hte, H.
  - assert (H : rank_users data = Raise AttributeError).
    { unfold rank_users. rewrite (sorted_reverse_not_dict "Rating" data Hn). reflexivity. }
    split; [split; auto|].
    intros e He. rewrite H in He. injection He as <-. left. reflexivity.
Qed.

Lemma rank_users_mixed_dicts (data : list pyval) :
  Forall (λ r, isinstance_dict r = true) data →
  mixed "Rating" data ∨ mixed "Problems Solved" data →
  rank_users data = Raise TypeError.
Proof.
  intros Hd Hmixed. unfold rank_users.
  destruct (sorted_reverse (λ x, py_get x "Rating" (PInt 0)) data) as [e|v1] eqn:H1.
  { apply sorted_reverse_raises in H1; [subst e; reflexivity | exact Hd]. }
  cbn [mbind result_bind].
  destruct (sorted_reverse (λ x, py_get x "Problems Solved" (PInt 0)) data)
    as [e|v2] eqn:H2.
  { apply sorted_reverse_raises in H2; [subst e; reflexivity | exact Hd]. }
  exfalso.
  apply sorted_reverse_kind in H1; [|exact Hd].
  apply sorted_reverse_kind in H2; [|exact Hd].
  destruct Hmixed as [Hm|Hm]; apply mixed_not_one_kind in Hm; congruence.
Qed.

(** X12: the five records [main] shows lead the ranking.  For a batch of
    records on which [rank_users] returns, the records shown under "Top
    Users by Rating" are the first five of the rating view, at most five
    and all of them when the batch has fewer, and none of them has a
    rating less than a record that is not shown; likewise for the records
    shown by problems solved. *)
Theorem top_users_lead (data v1 v2 : list pyval) :
  Forall (λ r, profile_record r = true) data →
  rank_users data = Return (v1, v2) →
  length (top_users v1) = min 5 (length data) ∧
  length (top_users v2) = min 5 (length data) ∧
  (∀ r r', In r (top_users v1) → In r' (drop 5 v1) →
           py_lt (rank_key "Rating" r) (rank_key "Rating" r') = Some false) ∧
  (∀ r r', In r (top_users v2) → In r' (drop 5 v2) →
           py_lt (rank_key "Problems Solved" r) (rank_key "Problems Solved" r')
           = Some false).
Proof.
  intros Hrec H. destruct (profile_record_rankable data Hrec) as [Hr1 Hr2].
  apply rank_users_Return_inv in H as [H1 H2].
  pose proof (sorted_reverse_stable _ _ _ Hr1 H1) as [Hp1 Hs1 _].
  pose proof (sorted_reverse_stable _ _ _ Hr2 H2) as [Hp2 Hs2 _].
  unfold top_users. rewrite !length_take.
  rewrite <- (Permutation_length Hp1), <- (Permutation_length Hp2).
  split; [reflexivity|]. split; [reflexivity|].
  rewrite <- (take_drop 5 v1) in Hs1. rewrite <- (take_drop 5 v2) in Hs2.
  split; intros r r' Hr Hr'; apply list_elem_of_In in Hr, Hr'.
  - exact (StronglySorted_app_1_elem_of _ _ _ _ _ Hs1 Hr Hr').
  - exact (StronglySorted_app_1_elem_of _ _ _ _ _ Hs2 Hr Hr').
Qed.

Lemma top_users_lead_witness :
  length (top_users six_by_rating) = min 5 (length six_users) ∧
  length (top_users six_by_solved) = min 5 (length six_users) ∧
  (∀ r r', In r (top_users six_by_rating) → In r' (drop 5 six_by_rating) →
           py_lt (rank_key "Rating" r) (rank_key "Rating" r') = Some false) ∧
  (∀ r r', In r (top_users six_by_solved) → In r' (drop 5 six_by_solved) →
           py_lt (rank_key "Problems Solved" r) (rank_key "Problems Solved" r')
           = Some false).
Proof.
  apply (top_users_lead six_users six_by_rating six_by_solved).
  - repeat constructor.
  - reflexivity.
Defined.

(** ** From the API to the ranking *)

Lemma fetch_user_data_keys (requests_get : string → http_outcome) (name : string)
    (fp fs : list (string * pyval)) (b r : pyval) :
  name ≠ "" →
  lookups_return requests_get name (PDict fp) b (PDict fs) →
  fetch_user_data requests_get name = Return r →
  rank_key "Rating" r = field_or_NA "reputation" fp ∧
  rank_key "Problems Solved" r = field_or_NA "solvedProblem" fs.
Proof.
  intros Hne Hl H.
  rewrite (fetch_user_data_lookups _ _ _ _ _ Hne Hl), try_except_merge_fields,
    merge_fields_dicts in H.
  bind_inv H.
  match type of H with (if ?c then _ else _) = _ => destruct c end.
  - do 4 bind_inv H. injection H as <-. split; reflexivity.
  - injection H as <-. split; reflexivity.
Qed.

Lemma main_fetch_reported (requests_get : string → http_outcome)
    (usernames : list string) :
  Forall (λ name, reported (fetch_user_data requests_get name)) usernames →
  main_fetch requests_get usernames =
    ({| results := omap record_of (submit_all requests_get usernames);
        printed := omap report_of (submit_all requests_get usernames) |}, None).
Proof.
  intros H. unfold main_fetch. rewrite collect_reported; [reflexivity|].
  unfold submit_all. apply Forall_map. exact H.
Qed.

Lemma records_of_batch (requests_get : string → http_outcome) (usernames : list string)
    (r : pyval) :
  In r (omap record_of (submit_all requests_get usernames)) ↔
  ∃ name, In name usernames ∧ fetch_user_data requests_get name = Return r.
Proof.
  unfold submit_all. induction usernames as [|u us IH]; simpl.
  - split; [contradiction | intros (name & [] & _)].
  - change (omap record_of ((u, fetch_user_data requests_get u) ::
              map (λ name, (name, fetch_user_data requests_get name)) us))
      with (match record_of (u, fetch_user_data requests_get u) with
            | Some y => y :: omap record_of
                (map (λ name, (name, fetch_user_data requests_get name)) us)
            | None => omap record_of
                (map (λ name, (name, fetch_user_data requests_get name)) us)
            end).
    unfold record_of at 1. simpl.
    destruct (fetch_user_data requests_get u) as [e|ru] eqn:Hu.
    + rewrite IH. split.
      * intros (name & Hin & Hr). eauto.
      * intros (name & [<-|Hin] & Hr); [congruence | eauto].
    + simpl. rewrite IH. split.
      * intros [<-|(name & Hin & Hr)]; eauto.
      * intros (name & [<-|Hin] & Hr); [left; congruence | right; eauto].
Qed.

(** X13: one unrated user stops the program at the ranking.  When the
    loop has run to its end on a list holding a user whose profile object
    has no "reputation" field and a user whose reputation is an integer,
    the call of [rank_users] on the collected records raises
    [TypeError]. *)
Theorem main_rank_unrated_user (requests_get : string → http_outcome)
    (usernames : list string) (a b : string)
    (pa sa pb sb : list (string * pyval)) (ba bb : pyval) (z : Z) :
  Forall (λ name, payloads_ok requests_get name = true) usernames →
  In a usernames → In b usernames → a ≠ "" → b ≠ "" →
  lookups_return requests_get a (PDict pa) ba (PDict sa) →
  dict_lookup "reputation" pa = None →
  lookups_return requests_get b (PDict pb) bb (PDict sb) →
  dict_lookup "reputation" pb = Some (PInt z) →
  main_rank requests_get usernames = Raise TypeError.
Proof.
  intros Hok Ha Hb Hane Hbne Hla Hpa Hlb Hpb.
  assert (Hrep : Forall (λ name, reported (fetch_user_data requests_get name)) usernames).
  { eapply Forall_impl; [exact Hok|]. intros name. apply payloads_ok_reported. }
  unfold main_rank. rewrite (main_fetch_reported _ _ Hrep). cbn [results].
  assert (Hret : ∀ name fp bp fs,
            In name usernames → name ≠ "" →
            lookups_return requests_get name (PDict fp) bp (PDict fs) →
            ∃ r, fetch_user_data requests_get name = Return r ∧
                 rank_key "Rating" r = field_or_NA "reputation" fp).
  { intros name fp bp fs Hin Hne Hl.
    assert (Hb' : badges_ok (Return bp) = true).
    { rewrite Forall_forall in Hok. apply list_elem_of_In in Hin.
      pose proof (Hok name Hin) as Hp. unfold payloads_ok in Hp.
      destruct Hl as (Hl1 & Hl2 & Hl3). rewrite Hl1, Hl2, Hl3 in Hp.
      apply andb_prop in Hp as [Hp _]. apply andb_prop in Hp as [_ Hp]. exact Hp. }
    destruct (fetch_user_data_returns requests_get name (PDict fp) bp (PDict fs))
      as [r Hr]; auto.
    exists r. split; [exact Hr|].
    eapply fetch_user_data_keys; eassumption. }
  destruct (Hret a pa ba sa Ha Hane Hla) as (ra & Hra & Hka).
  destruct (Hret b pb bb sb Hb Hbne Hlb) as (rb & Hrb & Hkb).
  unfold field_or_NA in Hka, Hkb. rewrite Hpa in Hka. rewrite Hpb in Hkb.
  apply rank_users_mixed_dicts.
  - apply Forall_forall. intros r Hr. apply list_elem_of_In in Hr.
    apply records_of_batch in Hr as (name & _ & Hr).
    apply fetch_user_data_Return_inv in Hr as (? & ? & ? & ? & ->). reflexivity.
  - left. exists ra, rb, z. repeat split; try assumption.
    + apply records_of_batch. eauto.
    + apply records_of_batch. eauto.
Qed.

Lemma main_rank_unrated_user_witness :
  main_rank nina_api ["nina"; "carol"]%string = Raise TypeError.
Proof.
  apply (main_rank_unrated_user nina_api ["nina"; "carol"]%string "nina" "carol"
           [("ranking", PInt 5)] [("solvedProblem", PInt 3)]
           [("reputation", PInt 1500); ("ranking", PInt 200)]
           [("solvedProblem", PInt 340)]
           (PDict [])
           (PDict [("badges",
              PList [PDict [("displayName", PStr "Guardian")];
                     PDict [("displayName", PStr "Annual Badge")]])])
           1500).
  - repeat constructor.
  - left. reflexivity.
  - right. left. reflexivity.
  - discriminate.
  - discriminate.
  - repeat split.
  - reflexivity.
  - repeat split.
  - reflexivity.
Defined.

Lemma rated_user_record (requests_get : string → http_outcome) (name : string) :
  rated_user requests_get name = true →
  ∃ r, fetch_user_data requests_get name = Return r ∧
       profile_record r = true ∧
       is_numeric (rank_key "Rating" r) = true ∧
       is_numeric (rank_key "Problems Solved" r) = true.
Proof.
  unfold rated_user. intros H.
  apply andb_prop in H as [H Hb]. apply andb_prop in H as [H Hs].
  apply andb_prop in H as [Hne Hp].
  apply negb_true_iff, String.eqb_neq in Hne.
  destruct (get_profile requests_get _) as [|[| | | | |fp]] eqn:Ep; try discriminate Hp.
  destruct (get_solved requests_get _) as [|[| | | | |fs]] eqn:Es; try discriminate Hs.
  destruct (get_badges requests_get _) as [|b] eqn:Eb; try discriminate Hb.
  simpl in Hp, Hs.
  destruct (dict_lookup "reputation" fp) as [[| |zp| | |]|] eqn:Hrep; try discriminate Hp.
  destruct (dict_lookup "solvedProblem" fs) as [[| |zs| | |]|] eqn:Hsol; try discriminate Hs.
  assert (Hl : lookups_return requests_get name (PDict fp) b (PDict fs)).
  { repeat split; assumption. }
  destruct (fetch_user_data_returns requests_get name (PDict fp) b (PDict fs))
    as [r Hr]; auto.
  exists r. split; [exact Hr|].
  destruct (fetch_user_data_keys _ _ _ _ _ _ Hne Hl Hr) as [Hk1 Hk2].
  unfold field_or_NA in Hk1, Hk2. rewrite Hrep in Hk1. rewrite Hsol in Hk2.
  apply fetch_user_data_Return_inv in Hr as (? & ? & ? & ? & ->).
  unfold profile_record. rewrite Hk1, Hk2. repeat split.
Qed.

(** X14: a batch of rated users is fetched and ranked without failure.
    When every username is non-empty and each user's lookups return an
    integer reputation, an integer solved count and a readable badges
    payload, the loop yields one record per username and prints nothing,
    and [rank_users] returns two views of those records, each in stable
    descending order of its field. *)
Theorem main_rank_rated_users (requests_get : string → http_outcome)
    (usernames : list string) :
  Forall (λ name, rated_user requests_get name = true) usernames →
  ∃ st v1 v2,
    main_fetch requests_get usernames = (st, None) ∧
    printed st = [] ∧
    Forall2 (λ name r, fetch_user_data requests_get name = Return r)
      usernames (results st) ∧
    main_rank requests_get usernames = Return (v1, v2) ∧
    stable_descending (rank_key "Rating") (results st) v1 ∧
    stable_descending (rank_key "Problems Solved") (results st) v2.
Proof.
  intros Hrated.
  assert (Hrep : Forall (λ name, reported (fetch_user_data requests_get name)) usernames).
  { eapply Forall_impl; [exact Hrated|]. intros name Hn.
    destruct (rated_user_record _ _ Hn) as (r & -> & _). exact I. }
  assert (Hbatch :
    omap report_of (submit_all requests_get usernames) = [] ∧
    Forall2 (λ name r, fetch_user_data requests_get name = Return r)
      usernames (omap record_of (submit_all requests_get usernames)) ∧
    Forall (λ r, profile_record r = true ∧
                 is_numeric (rank_key "Rating" r) = true ∧
                 is_numeric (rank_key "Problems Solved" r) = true)
      (omap record_of (submit_all requests_get usernames))).
  { clear Hrep. unfold submit_all.
    induction Hrated as [|name us Hn _ (IH1 & IH2 & IH3)]; [repeat constructor|].
    destruct (rated_user_record _ _ Hn) as (r & Hr & Hrec).
    change (map (λ name, (name, fetch_user_data requests_get name)) (name :: us))
      with ((name, fetch_user_data requests_get name) ::
            map (λ name, (name, fetch_user_data requests_get name)) us).
    rewrite Hr.
    change (omap report_of ((name, Return r) :: ?l)) with (omap report_of l).
    change (omap record_of ((name, Return r) :: ?l)) with (r :: omap record_of l).
    split; [exact IH1|]. split; constructor; assumption. }
  destruct Hbatch as (Hprinted & Hrecords & Hkeys).
  set (rs := omap record_of (submit_all requests_get usernames)) in *.
  assert (Hprofile : Forall (λ r, profile_record r = true) rs).
  { eapply Forall_impl; [exact Hkeys|]. intros r [H _]. exact H. }
  destruct (profile_record_rankable rs Hprofile) as [Hr1 Hr2].
  assert (Hk1 : one_kind "Rating" rs = true).
  { unfold one_kind. apply orb_true_iff. left. apply forallb_forall.
    intros r Hin. apply list_elem_of_In in Hin. rewrite Forall_forall in Hkeys.
    apply (Hkeys r Hin). }
  assert (Hk2 : one_kind "Problems Solved" rs = true).
  { unfold one_kind. apply orb_true_iff. left. apply forallb_forall.
    intros r Hin. apply list_elem_of_In in Hin. rewrite Forall_forall in Hkeys.
    apply (Hkeys r Hin). }
  destruct (sorted_reverse_total "Rating" rs Hr1 Hk1) as [v1 H1].
  destruct (sorted_reverse_total "Problems Solved" rs Hr2 Hk2) as [v2 H2].
  exists {| results := rs; printed := omap report_of (submit_all requests_get usernames) |},
    v1, v2.
  split; [apply main_fetch_reported, Hrep|]. split; [exact Hprinted|].
  split; [exact Hrecords|]. split.
  - unfold main_rank. rewrite (main_fetch_reported _ _ Hrep). cbn [results].
    fold rs. unfold rank_users. rewrite H1, H2. reflexivity.
  - cbn [results]. split; apply sorted_reverse_stable; assumption.
Qed.

Lemma main_rank_rated_users_witness :
  ∃ st v1 v2,
    main_fetch carol_api ["carol"; "carol"]%string = (st, None) ∧
    printed st = [] ∧
    Forall2 (λ name r, fetch_user_data carol_api name = Return r)
      ["carol"; "carol"]%string (results st) ∧
    main_rank carol_api ["carol"; "carol"]%string = Return (v1, v2) ∧
    stable_descending (rank_key "Rating") (results st) v1 ∧
    stable_descending (rank_key "Problems Solved") (results st) v2.
Proof.
  apply (main_rank_rated_users carol_api ["carol"; "carol"]%string).
  repeat constructor.
Defined.

(** ** Reading the usernames *)

Lemma split_on_nonempty (sep : ascii) (s : string) : split_on sep s ≠ [].
Proof.
  destruct s as [|c rest]; simpl; [discriminate|].
  destruct (Ascii.eqb c sep); [discriminate|].
  destruct (split_on sep rest); discriminate.
Qed.

Lemma split_on_length (sep : ascii) (s : string) :
  length (split_on sep s) =
    S (length (List.filter (Ascii.eqb sep) (list_ascii_of_string s))).
Proof.
  induction s as [|c rest IH]; [reflexivity|].
  simpl. rewrite (Ascii.eqb_sym sep c).
  destruct (Ascii.eqb c sep); simpl; [rewrite IH; reflexivity|].
  destruct (split_on sep rest) as [|piece pieces] eqn:Hsplit.
  - exfalso. eapply split_on_nonempty, Hsplit.
  - simpl in *. exact IH.
Qed.

(** X15: manual entry always yields usernames, one more than there are
    commas.  The list read from the terminal line is never empty: a line
    without comma gives one username, the empty line gives the single
    username "". *)
Theorem manual_usernames_length (input_string : string) :
  length (manual_usernames input_string) = S (count_commas input_string).
Proof.
  unfold manual_usernames, count_commas. rewrite length_map. apply split_on_length.
Qed.

Lemma split_on_free (sep : ascii) (s : string) :
  ¬ In sep (list_ascii_of_string s) → split_on sep s = [s].
Proof.
  induction s as [|c rest IH]; intros Hfree; [reflexivity|].
  simpl in *. destruct (Ascii.eqb c sep) eqn:Hc.
  - apply Ascii.eqb_eq in Hc. exfalso. apply Hfree. left. exact Hc.
  - rewrite IH; [reflexivity|]. intros Hin. apply Hfree. right. exact Hin.
Qed.

Lemma split_on_app (sep : ascii) (s rest : string) :
  ¬ In sep (list_ascii_of_string s) →
  split_on sep (s +:+ String sep rest) = s :: split_on sep rest.
Proof.
  induction s as [|c s' IH]; intros Hfree.
  - simpl. rewrite Ascii.eqb_refl. reflexivity.
  - simpl in *. destruct (Ascii.eqb c sep) eqn:Hc.
    + apply Ascii.eqb_eq in Hc. exfalso. apply Hfree. left. exact Hc.
    + rewrite IH; [reflexivity|]. intros Hin. apply Hfree. right. exact Hin.
Qed.

Lemma split_on_concat (us : list string) :
  us ≠ [] →
  Forall comma_free us →
  split_on "," (String.concat "," us) = us.
Proof.
  intros Hne Hfree. induction Hfree as [|u us Hu Hus IH]; [contradiction|].
  destruct us as [|u' us'].
  - simpl. apply split_on_free, Hu.
  - change (String.concat "," (u :: u' :: us'))
      with (u +:+ String "," (String.concat "," (u' :: us'))).
    rewrite (split_on_app _ _ _ Hu), IH; [reflexivity | discriminate].
Qed.

(** X16: entering usernames separated by commas gives those usernames
    back.  For a non-empty list of usernames that contain no comma and
    have no whitespace at either end, the line made of them joined by ","
    is read as exactly that list, in order. *)
Theorem manual_usernames_concat (us : list string) :
  us ≠ [] →
  Forall (λ u, comma_free u ∧ strip u = u) us →
  manual_usernames (String.concat "," us) = us.
Proof.
  intros Hne Hus. unfold manual_usernames.
  rewrite split_on_concat; [|exact Hne|].
  - induction Hus as [|u us [_ Hu] _ IH]; [reflexivity|].
    simpl. rewrite Hu. f_equal.
    destruct us as [|u' us']; [reflexivity | apply IH; discriminate].
  - eapply Forall_impl; [exact Hus|]. intros u [Hu _]. exact Hu.
Qed.

Lemma manual_usernames_concat_witness :
  manual_usernames (String.concat "," ["alice"; "bob_42"; "carol"]%string)
  = ["alice"; "bob_42"; "carol"]%string.
Proof.
  apply (manual_usernames_concat ["alice"; "bob_42"; "carol"]%string).
  - discriminate.
  - repeat constructor; unfold comma_free; simpl; intuition discriminate.
Defined.

Lemma file_usernames_nonempty (lines : list string) :
  Forall (λ u, u ≠ ""%string) (file_usernames lines).
Proof.
  unfold file_usernames. apply Forall_forall. intros u Hu.
  apply list_elem_of_In, in_map_iff in Hu as (line & <- & Hin).
  apply filter_In in Hin as [_ Hkeep].
  apply negb_true_iff, String.eqb_neq in Hkeep. exact Hkeep.
Qed.

Lemma report_of_nonempty (requests_get : string → http_outcome) (name line : string) :
  name ≠ "" →
  report_of (name, fetch_user_data requests_get name) = Some line →
  api_failure_line line.
Proof.
  intros Hne. rewrite (fetch_user_data_merge _ name Hne). unfold api_failure_line.
  destruct (get_profile requests_get _) as [e|p] eqn:Hp.
  { destruct (_request_failure _ _ _ Hp) as (cause & -> & Hc). simpl.
    intros H. injection H as <-. eauto. }
  destruct (get_badges requests_get _) as [e|b] eqn:Hb.
  { destruct (_request_failure _ _ _ Hb) as (cause & -> & Hc). simpl.
    intros H. injection H as <-. eauto. }
  destruct (get_solved requests_get _) as [e|s] eqn:Hs.
  { destruct (_request_failure _ _ _ Hs) as (cause & -> & Hc). simpl.
    intros H. injection H as <-. eauto. }
  cbn [mbind result_bind]. rewrite try_except_merge_fields.
  destruct (merge_fields name p b s) as [e|r] eqn:Hm; [|discriminate].
  apply merge_fields_raises in Hm as [-> | ->]; discriminate.
Qed.

(** X17: usernames read from a file never fail validation.  Every
    username kept from the lines of a file is non-empty and passes
    [validate_username], so whatever the API answers, each line the loop
    prints for such a batch reports a failed lookup ("Error fetching data
    for ...") and none is a validation error. *)
Theorem file_usernames_valid (requests_get : string → http_outcome)
    (lines : list string) :
  Forall (λ u, validate_username (PStr u) = Return tt) (file_usernames lines) ∧
  Forall api_failure_line
    (printed (fst (main_fetch requests_get (file_usernames lines)))).
Proof.
  pose proof (file_usernames_nonempty lines) as Hne. split.
  - eapply Forall_impl; [exact Hne|]. intros u. apply validate_username_nonempty.
  - unfold main_fetch.
    destruct (collect _ _) as [st o] eqn:Hc. simpl.
    apply collect_prefix in Hc as (before & after & Hsplit & _ & _ & -> & _).
    apply Forall_forall. intros line Hline.
    apply list_elem_of_omap in Hline as ([name outcome] & Hin & Hreport).
    assert (Hfut : (name, outcome) ∈ submit_all requests_get (file_usernames lines)).
    { rewrite Hsplit. apply elem_of_app. left. exact Hin. }
    unfold submit_all in Hfut.
    apply list_elem_of_In, in_map_iff in Hfut as (u & Hu & Huin).
    injection Hu as -> <-.
    rewrite Forall_forall in Hne. apply list_elem_of_In in Huin.
    eapply report_of_nonempty; [apply Hne, Huin | exact Hreport].
Qed.

Lemma lstrip_with_chars sp2 sp3 (n : nat) :
  ∀ s, (String.length s <= n)%nat →
  ∀ c, In c (list_ascii_of_string (lstrip_with sp2 sp3 s)) →
       In c (list_ascii_of_string s).
Proof.
  induction n as [|n IH]; intros s Hlen c.
  { destruct s; [auto | simpl in Hlen; lia]. }
  destruct s as [|c1 r1]; [auto|].
  simpl in Hlen. simpl lstrip_with.
  destruct (is_space c1).
  { intros H. right. apply (IH r1); [lia | exact H]. }
  destruct r1 as [|c2 r2]; [auto|].
  simpl in Hlen. destruct (sp2 c1 c2).
  { intros H. right. right. apply (IH r2); [lia | exact H]. }
  destruct r2 as [|c3 r3]; [auto|].
  simpl in Hlen. destruct (sp3 c1 c2 c3); [|auto].
  intros H. right. right. right. apply (IH r3); [lia | exact H].
Qed.

Lemma string_rev_chars (s : string) :
  list_ascii_of_string (string_rev s) = rev (list_ascii_of_string s).
Proof. unfold string_rev. apply list_ascii_of_string_of_list_ascii. Qed.

Lemma strip_chars (s : string) (c : ascii) :
  In c (list_ascii_of_string (strip s)) → In c (list_ascii_of_string s).
Proof.
  unfold strip, rstrip, lstrip. rewrite string_rev_chars. intros H.
  apply in_rev in H.
  apply (lstrip_with_chars _ _ _ _ (Nat.le_refl _)) in H.
  rewrite string_rev_chars in H. apply in_rev in H.
  apply (lstrip_with_chars _ _ _ _ (Nat.le_refl _)) in H. exact H.
Qed.

Lemma split_on_pieces_free (sep : ascii) (s : string) :
  List.Forall (λ piece, ¬ In sep (list_ascii_of_string piece)) (split_on sep s).
Proof.
  induction s as [|c rest IH]; simpl.
  - constructor; [intros [] | constructor].
  - destruct (Ascii.eqb c sep) eqn:Hc.
    + constructor; [intros [] | exact IH].
    + apply Ascii.eqb_neq in Hc.
      destruct (split_on sep rest) as [|piece pieces].
      * constructor; [|constructor]. simpl. intros [H|[]]. congruence.
      * inversion IH as [|? ? Hpiece Hpieces]; subst.
        constructor; [|exact Hpieces].
        simpl. intros [H|H]; [congruence | exact (Hpiece H)].
Qed.

(** X18: a username read from the terminal line contains no comma, and
    stripping adds nothing: each username consists of characters of the
    line that was entered. *)
Theorem manual_usernames_comma_free (input_string : string) :
  Forall
    (λ u, comma_free u ∧
          ∀ c, In c (list_ascii_of_string u) →
               In c (list_ascii_of_string input_string))
    (manual_usernames input_string).
Proof.
  unfold manual_usernames. apply Forall_forall. intros u Hu.
  apply list_elem_of_In, in_map_iff in Hu as (piece & <- & Hin).
  pose proof (split_on_pieces_free "," input_string) as Hfree.
  rewrite List.Forall_forall in Hfree. split.
  - intros Hc. apply strip_chars in Hc. exact (Hfree piece Hin Hc).
  - intros c Hc. apply strip_chars in Hc.
    clear Hfree. revert piece Hin c Hc.
    induction input_string as [|c0 rest IH]; simpl; intros piece Hin c Hc.
    + destruct Hin as [<-|[]]. exact Hc.
    + destruct (Ascii.eqb c0 ",").
      * destruct Hin as [<-|Hin]; [destruct Hc | right; eapply IH; eassumption].
      * destruct (split_on "," rest) as [|p ps] eqn:Hsplit.
        { destruct Hin as [<-|[]]. destruct Hc as [<-|[]]. left. reflexivity. }
        destruct Hin as [<-|Hin].
        { destruct Hc as [<-|Hc]; [left; reflexivity|].
          right. apply (IH p); [left; reflexivity | exact Hc]. }
        right. apply (IH piece); [right; exact Hin | exact Hc].
Qed.



